(** * NeoForge resolver: version-strategy registry and artifact staging

    A shallow embedding of the NeoForge part of the distribution builder:

    - [VersionSegmentedRegistry.getNeoForgeResolver] (util/VersionSegmentedRegistry),
    - [NeoForgeResolver] (resolver/neoforge/NeoForge.resolver),
    - [NeoForgeGradle2Adapter] (resolver/neoforge/adapter/NeoForgeGradle2.resolver),
    - [NeoForgeGradle3Adapter] (resolver/neoforge/adapter/NeoForgeGradle3.resolver).

    Asynchronous code is sequential here: every [await] is a plain call.
    The file system, the network and the two external processes are an
    explicit world that is threaded through a state-and-error monad; every
    observable action leaves an event in the world's trace.  Diagnostic
    logging ([logger.debug], [logger.info]) is not modelled; the advisory
    printed by [checkSecurity] is. *)

From Stdlib Require Import ZArith String Ascii List Bool Lia.
From stdpp Require Import base strings gmap list.

Local Open Scope Z_scope.

(** ** Results and errors *)

Inductive Error :=
| JsError (msg : string)          (* throw new Error(msg) *)
| TypeError (what : string)       (* property access on undefined *)
| FsError (code path : string)    (* ENOENT / EISDIR raised by fs *)
| DownloadError (what : string)   (* transport failure *)
| HelperError (what : string).    (* raised inside a helper that is a parameter *)

Inductive Res (A : Type) :=
| Ok (a : A)
| Err (e : Error).
Arguments Ok {A} a.
Arguments Err {A} e.

(** ** The world: files, and the trace of what was done *)

Inductive Node :=
| File (content : string)
| Dir.

Inductive Event :=
| EvExists (p : string)                  (* pathExists / artifactExists *)
| EvCopy (src dst : string)
| EvRemove (p : string)
| EvMkdirs (p : string)
| EvWrite (p : string)
| EvDownload (dest : string)
| EvHead (repo name ext : string)
| EvSpawnInstaller (java jar cwd : string)
| EvUnpack (files : list string)
| EvLogError (logger msg : string)
| EvPause (ms : Z).

Record World := mkWorld {
  fs : gmap string Node;
  trace : list Event
}.

Definition M (A : Type) : Type := World -> Res A * World.

#[global] Instance M_ret : MRet M := fun A a w => (Ok a, w).
#[global] Instance M_bind : MBind M := fun A B f m w =>
  match m w with
  | (Ok a, w') => f a w'
  | (Err e, w') => (Err e, w')
  end.

Definition throw {A} (e : Error) : M A := fun w => (Err e, w).
Definition liftRes {A} (r : Res A) : M A := fun w => (r, w).
Definition emit (e : Event) : M unit :=
  fun w => (Ok tt, mkWorld (fs w) (trace w ++ [e])).

(** ** Game versions *)

(** Modelled from the spec: the MinecraftVersion class is not among the
    sources.  The spec describes a structured semantic version
    (major.minor.patch) with an ordering; [getMajor] and [getMinor] are the
    accessors the resolvers call. *)
Record MinecraftVersion := mkVersion {
  getMajor : Z;
  getMinor : Z;
  getRevision : Z
}.

(** Modelled from the spec: [MinecraftVersion.isGreaterThanOrEqualTo], the
    ordering of versions, read as the lexicographic order on
    (major, minor, patch). *)
Definition isGreaterThanOrEqualTo (a b : MinecraftVersion) : bool :=
  if getMajor a =? getMajor b then
    if getMinor a =? getMinor b then getRevision b <=? getRevision a
    else getMinor b <? getMinor a
  else getMajor b <? getMajor a.

(** The helpers of util/VersionUtil and [MinecraftVersion.toString] are not
    among the sources: they are parameters.  [versionGte] is called by
    [checkSecurity] with a table lookup that can be [undefined] ([None]); what
    it does then (return, or raise) is left open. *)
Record VersionUtil := {
  isOneDotTwelveFG2 : string -> bool;
  isVersionAcceptable : MinecraftVersion -> list Z -> bool;
  versionGte : string -> option string -> Res bool;
  mcToString : MinecraftVersion -> string
}.

(** ** Expected files and the resolver object *)

Record GeneratedFile := mkGeneratedFile {
  gf_name : string;
  gf_group : string;
  gf_artifact : string;
  gf_version : option string;             (* [None]: undefined at run time *)
  gf_classifiers : list (option string);   (* string[] | [undefined] *)
  gf_skipIfNotPresent : option bool;
  gf_classpath : option bool
}.

Inductive AdapterImpl :=
| NeoForgeGradle2Adapter
| NeoForgeGradle3Adapter.

#[global] Instance AdapterImpl_eq_dec : EqDecision AdapterImpl.
Proof. solve_decision. Defined.

Record ResolverArgs := mkArgs {
  absoluteRoot : string;
  relativeRoot : string;
  baseUrl : string;
  minecraftVersion : MinecraftVersion;
  neoforgeVersion : string;
  discardOutput : bool;
  invalidateCache : bool
}.

Record Resolver := mkResolver {
  r_impl : AdapterImpl;
  r_args : ResolverArgs;
  generatedFiles : option (list GeneratedFile);
  wildcardsInUse : option (list string)
}.

(** Constants of structure/repo/LibRepo.struct (not among the sources), and
    the value of the resolver's [artifactVersion] field.  [NeoForgeResolver]
    declares that field (under a ts-ignore) and nothing in the sources assigns
    it: a resolver built from these sources holds undefined ([None]) there.
    The field is read wherever the code reads it, and its value is kept
    general. *)
Record LibRepoConsts := {
  NEOFORGE_GROUP : string;
  NEOFORGE_ARTIFACT : string;
  NEOFMLCORE_ARTIFACT : string;
  FMLCORE_ARTIFACT : string;
  JAVAFMLLANGUAGE_ARTIFACT : string;
  MCLANGUAGE_ARTIFACT : string;
  LOWCODELANGUAGE_ARTIFACT : string;
  MINECRAFT_GROUP : string;
  MINECRAFT_CLIENT_ARTIFACT : string;
  artifactVersion : option string
}.

Definition WILDCARD_MCP_VERSION : string := "${mcpVersion}".

Definition NEOFORGE_ADAPTER_IMPL : list AdapterImpl :=
  [NeoForgeGradle2Adapter; NeoForgeGradle3Adapter].

Definition patchMatrix : gmap Z string :=
  <[21 := "21.1.123"%string]> (<[20 := "47.1.106"%string]> ∅).

(** Template-literal rendering of a possibly undefined string. *)
Definition jsString (o : option string) : string :=
  match o with Some s => s | None => "undefined" end.

Section Registry.

Context (VU : VersionUtil) (LC : LibRepoConsts).

(** *** NeoForgeGradle2Adapter.isForVersion *)
Definition isForVersion_FG2 (version : MinecraftVersion) (libraryVersion : string) : bool :=
  if (getMinor version =? 12) && negb (isOneDotTwelveFG2 VU libraryVersion)
  then false
  else isVersionAcceptable VU version [7; 8; 9; 10; 11; 12].

(** *** NeoForgeGradle3Adapter.isForVersion *)
Definition isForVersion_FG3 (version : MinecraftVersion) (libraryVersion : string) : bool :=
  if (getMinor version =? 12) && isOneDotTwelveFG2 VU libraryVersion
  then false
  else isVersionAcceptable VU version [12; 13; 14; 15; 16; 17; 18; 19; 20; 21].

Definition isForVersion (impl : AdapterImpl) : MinecraftVersion -> string -> bool :=
  match impl with
  | NeoForgeGradle2Adapter => isForVersion_FG2
  | NeoForgeGradle3Adapter => isForVersion_FG3
  end.

(** *** NeoForgeGradle3Adapter.isExecutableJar *)
Definition isExecutableJar (version : MinecraftVersion) : bool :=
  isGreaterThanOrEqualTo version (mkVersion 1 20 3).

(** *** NeoForgeResolver.checkSecurity *)
Definition securityLogger : string := "NeoForgeSecurity".

Definition advisory (hasPatch : bool) (minor : Z) : list Event :=
  [ EvLogError securityLogger "==================================================================";
    EvLogError securityLogger "                           WARNING                                ";
    EvLogError securityLogger " This version of NeoForge is vulnerable to a CRITICAL RCE exploit. ";
    EvLogError securityLogger "                    DO NOT USE THIS VERSION!                      ";
    (if hasPatch
     then EvLogError securityLogger
            ("   A patch is available as of Minecraft NeoForge v"
               +:+ jsString (patchMatrix !! minor) +:+ "      ")
     else EvLogError securityLogger
            "         There is no patch available for this version.            ");
    EvLogError securityLogger "==================================================================";
    EvLogError securityLogger "To abort, use CTRL + C.";
    EvLogError securityLogger "Nebula will proceed in 15 seconds..";
    EvPause (15 * 1000) ].

Definition emitAll (es : list Event) : M unit :=
  fun w => (Ok tt, mkWorld (fs w) (trace w ++ es)).

Definition checkSecurity (mv : MinecraftVersion) (nv : string) : M unit :=
  let major := getMajor mv in
  let minor := getMinor mv in
  let isVulnerable := (major =? 1) && ((minor <=? 18) && (minor >=? 12)) in
  let hasPatch := (major =? 1) && (minor >=? 12) in
  unsafe ← (if isVulnerable then
              if hasPatch then
                b ← liftRes (versionGte VU nv (patchMatrix !! minor));
                mret (negb b)
              else mret true
            else mret false);
  if (unsafe : bool) then emitAll (advisory hasPatch minor) else mret tt.

(** *** NeoForgeGradle3Adapter.configure *)
Definition gf (name group artifact : string) (version : option string)
    (classifiers : list (option string)) (skip classpath : option bool) : GeneratedFile :=
  mkGeneratedFile name group artifact version classifiers skip classpath.

Definition configure (mv : MinecraftVersion)
  : option (list GeneratedFile) * option (list string) :=
  let av := artifactVersion LC in
  if isExecutableJar mv then
    (Some
       [ gf "universal jar" (NEOFORGE_GROUP LC) (NEOFORGE_ARTIFACT LC) av [Some "universal"%string] None None;
         gf "client jar" (NEOFORGE_GROUP LC) (NEOFORGE_ARTIFACT LC) av [Some "client"%string] None None;
         gf "client shim" (NEOFORGE_GROUP LC) (NEOFORGE_ARTIFACT LC) av [Some "shim"%string] None (Some false);
         gf "fmlcore" (NEOFORGE_GROUP LC) (NEOFMLCORE_ARTIFACT LC) av [None] None None;
         gf "javafmllanguage" (NEOFORGE_GROUP LC) (JAVAFMLLANGUAGE_ARTIFACT LC) av [None] None None;
         gf "mclanguage" (NEOFORGE_GROUP LC) (MCLANGUAGE_ARTIFACT LC) av [None] None None;
         gf "lowcodelanguage" (NEOFORGE_GROUP LC) (LOWCODELANGUAGE_ARTIFACT LC) av [None] None None ],
     None)
  else if isVersionAcceptable VU mv [19; 20] then
    let mcpUnifiedVersion := Some (mcToString VU mv +:+ "-" +:+ WILDCARD_MCP_VERSION) in
    let base :=
      [ gf "universal jar" (NEOFORGE_GROUP LC) (NEOFORGE_ARTIFACT LC) av [Some "universal"%string] None (Some false);
        gf "client jar" (NEOFORGE_GROUP LC) (NEOFORGE_ARTIFACT LC) av [Some "client"%string] None (Some false);
        gf "client data" (MINECRAFT_GROUP LC) (MINECRAFT_CLIENT_ARTIFACT LC)
           (Some (mcToString VU mv))
           [Some "data"%string] (Some true) (Some false);
        gf "client srg" (MINECRAFT_GROUP LC) (MINECRAFT_CLIENT_ARTIFACT LC) mcpUnifiedVersion
           [Some "srg"%string] None (Some false) ] in
    (* unshift: added in 1.17+ *)
    let files1 :=
      if isVersionAcceptable VU mv [17; 18; 19; 20] then
        [ gf "fmlcore" (NEOFORGE_GROUP LC) (FMLCORE_ARTIFACT LC) av [None] None None;
          gf "javafmllanguage" (NEOFORGE_GROUP LC) (JAVAFMLLANGUAGE_ARTIFACT LC) av [None] None None;
          gf "mclanguage" (NEOFORGE_GROUP LC) (MCLANGUAGE_ARTIFACT LC) av [None] None None ] ++ base
      else base in
    let files2 :=
      if isVersionAcceptable VU mv [18; 19; 20] then
        (* unshift: added in 1.18+ *)
        gf "lowcodelanguage" (NEOFORGE_GROUP LC) (LOWCODELANGUAGE_ARTIFACT LC) av [None] None None :: files1
      else
        (* push *)
        files1 ++
        [ gf "client slim" (MINECRAFT_GROUP LC) (MINECRAFT_CLIENT_ARTIFACT LC) mcpUnifiedVersion
             [Some "slim"%string; Some "slim-stable"%string] None (Some false);
          gf "client extra" (MINECRAFT_GROUP LC) (MINECRAFT_CLIENT_ARTIFACT LC) mcpUnifiedVersion
             [Some "extra"%string; Some "extra-stable"%string] None (Some false) ] in
    (Some files2, Some [WILDCARD_MCP_VERSION])
  else (None, None).

(** *** Constructors: [new impl(...)]

    [NeoForgeResolver]'s constructor runs [checkSecurity]; the Gradle3
    adapter's then runs [configure]. *)
Definition new_ (impl : AdapterImpl) (a : ResolverArgs) : M Resolver :=
  checkSecurity (minecraftVersion a) (neoforgeVersion a);;
  match impl with
  | NeoForgeGradle2Adapter => mret (mkResolver impl a None None)
  | NeoForgeGradle3Adapter =>
      let '(files, wild) := configure (minecraftVersion a) in
      mret (mkResolver impl a files wild)
  end.

(** *** VersionSegmentedRegistry.getNeoForgeResolver *)
Fixpoint resolverLoop (impls : list AdapterImpl) (a : ResolverArgs) : M Resolver :=
  match impls with
  | [] =>
      throw (JsError ("No forge resolver found for Minecraft "
                        +:+ mcToString VU (minecraftVersion a) +:+ "!"))
  | impl :: rest =>
      if isForVersion impl (minecraftVersion a) (neoforgeVersion a)
      then new_ impl a
      else resolverLoop rest a
  end.

Definition getNeoForgeResolver (a : ResolverArgs) : M Resolver :=
  resolverLoop NEOFORGE_ADAPTER_IMPL a.

End Registry.

(** ** File-system primitives (fs-extra, fs/promises, path)

    A path exists when it is a key of the map or when some key lies beneath
    it, so the ancestors of a written file exist without being listed. *)

Definition under (d p : string) : bool :=
  String.eqb d p || String.prefix (d +:+ "/") p.

Definition existsPath (m : gmap string Node) (p : string) : bool :=
  existsb (fun kv => under p kv.1) (map_to_list m).

Definition removePath (m : gmap string Node) (p : string) : gmap string Node :=
  filter (fun kv => under p kv.1 = false) m.

Definition dropPrefix (n : nat) (s : string) : string :=
  String.substring n (String.length s - n) s.

(** *** path.join, path.basename and path.dirname (POSIX flavour) *)

Definition isSlash (c : ascii) : bool := Ascii.eqb c "/".

Fixpoint splitSlash (s acc : string) : list string :=
  match s with
  | EmptyString => [acc]
  | String c s' =>
      if isSlash c then acc :: splitSlash s' ""
      else splitSlash s' (acc +:+ String c "")
  end.

(** normalizeString: empty and "." segments go, ".." takes the segment
    before it away; [res] holds the segments kept so far, the last one first. *)
Fixpoint normalizeSegments (allowAboveRoot : bool) (segs res : list string) : list string :=
  match segs with
  | [] => rev res
  | seg :: rest =>
      if String.eqb seg "" || String.eqb seg "." then normalizeSegments allowAboveRoot rest res
      else if String.eqb seg ".." then
        match res with
        | last :: res' =>
            if String.eqb last ".."
            then normalizeSegments allowAboveRoot rest
                   (if allowAboveRoot then ".."%string :: res else res)
            else normalizeSegments allowAboveRoot rest res'
        | [] =>
            normalizeSegments allowAboveRoot rest
              (if allowAboveRoot then [".."%string] else [])
        end
      else normalizeSegments allowAboveRoot rest (seg :: res)
  end.

Definition endsWithSlash (s : string) : bool :=
  match rev (list_ascii_of_string s) with
  | c :: _ => isSlash c
  | [] => false
  end.

(** path.normalize *)
Definition normalize (path : string) : string :=
  match path with
  | EmptyString => "."
  | String c0 _ =>
      let isAbsolute := isSlash c0 in
      let trailingSeparator := endsWithSlash path in
      let p := String.concat "/" (normalizeSegments (negb isAbsolute) (splitSlash path "") []) in
      if String.eqb p "" then
        if isAbsolute then "/" else if trailingSeparator then "./" else "."
      else
        let p := if trailingSeparator then p +:+ "/" else p in
        if isAbsolute then "/" +:+ p else p
  end.

(** path.join: the non-empty arguments, separated by "/", normalised. *)
Definition pathJoin (args : list string) : string :=
  match List.filter (fun s => negb (String.eqb s "")) args with
  | [] => "."
  | parts => normalize (String.concat "/" parts)
  end.

Definition join (a b : string) : string := pathJoin [a; b].

Fixpoint dropWhile {A} (f : A -> bool) (l : list A) : list A :=
  match l with
  | x :: l' => if f x then dropWhile f l' else l
  | [] => []
  end.

Fixpoint takeWhile {A} (f : A -> bool) (l : list A) : list A :=
  match l with
  | x :: l' => if f x then x :: takeWhile f l' else []
  | [] => []
  end.

(** path.basename without a suffix: the last segment, trailing separators
    apart. *)
Definition basename (path : string) : string :=
  let r := dropWhile isSlash (rev (list_ascii_of_string path)) in
  string_of_list_ascii (rev (takeWhile (fun c => negb (isSlash c)) r)).

(** path.dirname: what precedes the separator before the last segment; "."
    or "/" when there is none. *)
Definition dirname (path : string) : string :=
  match path with
  | EmptyString => "."
  | String c0 rest =>
      let hasRoot := isSlash c0 in
      let r := dropWhile isSlash (rev (list_ascii_of_string rest)) in
      match dropWhile (fun c => negb (isSlash c)) r with
      | [] => if hasRoot then "/" else "."
      | _ :: before =>
          match before with
          | [] => if hasRoot then "//" else String c0 ""
          | _ :: _ => String c0 (string_of_list_ascii (rev before))
          end
      end
  end.

Definition pathExists (p : string) : M bool :=
  fun w => (Ok (existsPath (fs w) p), mkWorld (fs w) (trace w ++ [EvExists p])).

Definition remove (p : string) : M unit :=
  fun w => (Ok tt, mkWorld (removePath (fs w) p) (trace w ++ [EvRemove p])).

Definition mkdirs (p : string) : M unit :=
  fun w =>
    match fs w !! p with
    | Some (File _) => (Err (FsError "EEXIST" p), w)
    | Some Dir => (Ok tt, mkWorld (fs w) (trace w ++ [EvMkdirs p]))
    | None => (Ok tt, mkWorld (<[p := Dir]> (fs w)) (trace w ++ [EvMkdirs p]))
    end.

Definition readFile (p : string) : M string :=
  fun w =>
    match fs w !! p with
    | Some (File c) => (Ok c, w)
    | Some Dir => (Err (FsError "EISDIR" p), w)
    | None => (Err (FsError (if existsPath (fs w) p then "EISDIR" else "ENOENT") p), w)
    end.

Record Stats := mkStats {
  st_size : nat;
  st_isDirectory : bool
}.

Definition lstat (p : string) : M Stats :=
  fun w =>
    match fs w !! p with
    | Some (File c) => (Ok (mkStats (String.length c) false), w)
    | Some Dir => (Ok (mkStats 0 true), w)
    | None =>
        if existsPath (fs w) p then (Ok (mkStats 0 true), w)
        else (Err (FsError "ENOENT" p), w)
    end.

(** writeFile / writeJson.  At every call site the parent directory was
    created or written into just before. *)
Definition writeFile (p content : string) : M unit :=
  fun w =>
    match fs w !! p with
    | Some Dir => (Err (FsError "EISDIR" p), w)
    | _ => (Ok tt, mkWorld (<[p := File content]> (fs w)) (trace w ++ [EvWrite p]))
    end.

(** fs-extra [copy] (overwriting): a file is copied to [dst]; a directory is
    copied with everything beneath it. *)
Definition copiedNodes (m : gmap string Node) (src dst : string) : list (string * Node) :=
  omap (fun kv : string * Node =>
          if under src kv.1
          then Some (dst +:+ dropPrefix (String.length src) kv.1, kv.2)
          else None)
       (map_to_list m).

Definition copyFs (m : gmap string Node) (src dst : string) : gmap string Node :=
  list_to_map (copiedNodes m src dst) ∪ m.

Definition copy (src dst : string) : M unit :=
  fun w =>
    if existsPath (fs w) src
    then (Ok tt, mkWorld (copyFs (fs w) src dst) (trace w ++ [EvCopy src dst]))
    else (Err (FsError "ENOENT" src), w).

(** try { m } catch(err) { throw e } *)
Definition rethrowAs {A} (m : M A) (e : Error) : M A :=
  fun w => match m w with
           | (Ok a, w') => (Ok a, w')
           | (Err _, w') => (Err e, w')
           end.

(** ** Modules of the distribution tree (helios-distribution-types) *)

Record Artifact := mkArtifact {
  a_size : nat;
  a_MD5 : string;
  a_url : string
}.

Inductive ModuleType :=
| NeoForgeHosted
| VersionManifest
| Library.

#[local] Set Warnings "-register-all".
Inductive Module := mkModule {
  m_id : option string;                    (* [None]: undefined at run time *)
  m_name : string;
  m_type : ModuleType;
  m_classpath : option bool;
  m_artifact : Artifact;
  m_subModules : option (list Module)
}.

Definition setType (t : ModuleType) (m : Module) : Module :=
  mkModule (m_id m) (m_name m) t (m_classpath m) (m_artifact m) (m_subModules m).
Definition setSubModules (subs : option (list Module)) (m : Module) : Module :=
  mkModule (m_id m) (m_name m) (m_type m) (m_classpath m) (m_artifact m) subs.
Definition setMD5 (h : string) (m : Module) : Module :=
  mkModule (m_id m) (m_name m) (m_type m) (m_classpath m)
           (mkArtifact (a_size (m_artifact m)) h (a_url (m_artifact m)))
           (m_subModules m).

(** ** Manifests *)

Record LibraryFG3 := mkLibraryFG3 {
  lib3_name : string;
  lib3_path : string;      (* downloads.artifact.path *)
  lib3_url : string;       (* downloads.artifact.url *)
  lib3_sha1 : string       (* downloads.artifact.sha1 *)
}.

Record VersionManifestFG3 := mkManifestFG3 {
  vm3_game : list string;             (* arguments.game *)
  vm3_libraries : list LibraryFG3
}.

Record LibraryFG2 := mkLibraryFG2 {
  lib2_name : string;
  lib2_url : option string;
  lib2_checksums : option (list string)
}.

Record VersionManifestFG2 := mkManifestFG2 {
  vm2_libraries : list LibraryFG2
}.

Record MavenComponents := mkComponents {
  mc_group : string;
  mc_artifact : string;
  mc_version : string;
  mc_classifier : option string;
  mc_extension : option string
}.

(** ** Collaborators that are not among the sources

    The repository-layout helpers (RepoStructure, LibRepoStructure,
    VersionRepoStructure, MavenUtil), [BaseResolver.generateArtifact] and
    [JavaUtil.getJavaExecutable] are parameters.  An omitted trailing
    argument is [None]; a version argument is an [option string] because the
    code passes [artifactVersion] and the versions of the expected files,
    which can be undefined. *)
Record Layout := {
  mavenComponentsAsNormalizedPath :
    string -> string -> option string -> option string -> string;
  mavenComponentsToIdentifier :
    string -> string -> option string -> option string -> option string -> string;
  getMavenComponents : string -> MavenComponents;
  getLocalNeoForge : option string -> string -> string;
  getArtifactById : string -> string -> string;
  getArtifactByComponents :
    string -> string -> option string -> option string -> option string -> string;
  getArtifactUrlByComponents :
    string -> string -> string -> option string -> option string -> option string -> string;
  resolveInLibRepo : string -> string;
  getTempDirectory : string;
  getNeoForgeCacheDirectory : option string -> string;
  getFileName : MinecraftVersion -> string -> string;
  getVersionManifest : MinecraftVersion -> string -> string;
  getVersionManifestURL : string -> MinecraftVersion -> string -> string;
  generateArtifact : string -> Stats -> string -> Artifact;
  getJavaExecutable : string
}.

(** What lies outside the program: hashing, JSON, the zip reader, the remote
    repositories, the installer process and the PackXZExtract tool. *)
Record Externals := {
  sha1 : string -> string;
  md5 : string -> string;
  parseFG3 : string -> option VersionManifestFG3;
  parseFG2 : string -> option VersionManifestFG2;
  printFG3 : VersionManifestFG3 -> string;
  zipEntry : string -> string -> option string;
  fetchByComponents :
    string -> string -> string -> option string -> string -> string -> option string;
  fetchById : string -> string -> string -> option string;
  fetchDirect : string -> option string;
  headById : string -> string -> string -> bool;
  runInstaller : string -> string -> gmap string Node -> gmap string Node;
  runUnpack : list string -> gmap string Node -> Res (gmap string Node)
}.

Definition MOJANG_REMOTE_REPOSITORY : string := "https://libraries.minecraft.net/".
Definition REMOTE_REPOSITORY : string := "https://maven.neoforge.net/".

(** ** String helpers of the JavaScript runtime *)

(** [s.includes(pat)] *)
Definition includes (pat s : string) : bool :=
  match String.index 0 pat s with Some _ => true | None => false end.

(** The replacement text of [String.prototype.replace] for a string
    pattern (GetSubstitution without captures): "$$" stands for "$", "$&" for
    the matched text, "$`" and "$'" for what precedes and follows the match;
    any other "$" is literal. *)
Fixpoint expandReplacement (matched before after by_ : string) : string :=
  match by_ with
  | EmptyString => ""
  | String c rest =>
      if Ascii.eqb c "$" then
        match rest with
        | String d rest' =>
            if Ascii.eqb d "$" then String "$" (expandReplacement matched before after rest')
            else if Ascii.eqb d "&" then matched +:+ expandReplacement matched before after rest'
            else if Ascii.eqb d "`" then before +:+ expandReplacement matched before after rest'
            else if Ascii.eqb d "'" then after +:+ expandReplacement matched before after rest'
            else String c (expandReplacement matched before after rest)
        | EmptyString => String c ""
        end
      else String c (expandReplacement matched before after rest)
  end.

(** [s.replace(pat, by)] with a string pattern: the first occurrence only. *)
Definition replaceFirst (pat by_ s : string) : string :=
  match String.index 0 pat s with
  | Some i =>
      let before := String.substring 0 i s in
      let after := dropPrefix (i + String.length pat) s in
      before +:+ expandReplacement pat before after by_ +:+ after
  | None => s
  end.

(** [s.substring(0, s.indexOf(pat))]; indexOf is -1 when [pat] does not
    occur, and substring clamps it to 0. *)
Definition beforeFirst (pat s : string) : string :=
  match String.index 0 pat s with
  | Some i => String.substring 0 i s
  | None => ""
  end.

(** [list.join(sep)] *)
Definition joinWith (sep : string) (l : list string) : string := String.concat sep l.

Definition nlTab : string := String "010" (String "009" "").

(** JavaScript truthiness of an optional boolean / of a string. *)
Definition truthy (o : option bool) : bool :=
  match o with Some b => b | None => false end.
Definition nonEmpty (s : string) : bool := negb (String.eqb s "").

Section Staging.

Context (VU : VersionUtil) (LC : LibRepoConsts) (LY : Layout) (EX : Externals).

(** *** The artifact store (LibRepoStructure) *)

(** Modelled from the spec: the store's [exists(path)] of the on-disk
    repository helper, which is not among the sources. *)
Definition artifactExists (p : string) : M bool := pathExists p.

(** Modelled from the spec: the download primitives of the on-disk
    repository helper, which is not among the sources.  A download fetches the
    remote content and writes it at the local path of the coordinate (for
    [downloadArtifactDirect], at the given path inside the library
    repository); a transport failure raises. *)
Definition downloadTo (dest : string) (content : option string) : M unit :=
  match content with
  | Some b =>
      fun w => (Ok tt, mkWorld (<[dest := File b]> (fs w)) (trace w ++ [EvDownload dest]))
  | None => throw (DownloadError dest)
  end.

Definition downloadArtifactByComponents (repo group artifact : string)
    (version : option string) (classifier ext : string) : M unit :=
  downloadTo (getArtifactByComponents LY group artifact version (Some classifier) (Some ext))
             (fetchByComponents EX repo group artifact version classifier ext).

Definition downloadArtifactById (repo name ext : string) : M unit :=
  downloadTo (getArtifactById LY name ext) (fetchById EX repo name ext).

Definition downloadArtifactDirect (url path : string) : M unit :=
  downloadTo (resolveInLibRepo LY path) (fetchDirect EX url).

Definition headArtifactById (repo name ext : string) : M bool :=
  fun w => (Ok (headById EX repo name ext), mkWorld (fs w) (trace w ++ [EvHead repo name ext])).

(** *** NeoForgeResolver.getVersionManifestFromJar *)
Definition getVersionManifestFromJar (jarPath : string) : M string :=
  fun w =>
    match fs w !! jarPath with
    | Some (File c) =>
        match zipEntry EX c "version.json" with
        | Some data => (Ok data, w)
        | None => (Err (JsError "Entry not found"), w)
        end
    | _ => (Err (FsError "ENOENT" jarPath), w)
    end.

(** ** NeoForgeGradle3Adapter *)

(** *** getVersionManifestPath *)
Definition getVersionManifestPath (a : ResolverArgs) (installerOutputDir : string) : string :=
  let versionName := getFileName LY (minecraftVersion a) (neoforgeVersion a) in
  pathJoin [installerOutputDir; "versions"; versionName; versionName +:+ ".json"].

(** *** verifyInstallerRan *)
Definition verifyInstallerRan (a : ResolverArgs) (installerOutputDir : string) : M unit :=
  let versionManifestPath := getVersionManifestPath a installerOutputDir in
  ex ← pathExists versionManifestPath;
  if negb ex then
    remove installerOutputDir;;
    throw (JsError ("NeoForge was either not installed or installed to the wrong location. When the neoforge installer opens, you MUST set the installation directory to "
                      +:+ installerOutputDir))
  else mret tt.

(** *** executeInstaller: spawn the installer and wait for it to close; the
    exit code is only logged. *)
Definition executeInstaller (installerExec : string) : M unit :=
  fun w =>
    (Ok tt,
     mkWorld (runInstaller EX installerExec (dirname installerExec) (fs w))
             (trace w ++ [EvSpawnInstaller (getJavaExecutable LY) installerExec
                                           (dirname installerExec)])).

(** *** processVersionManifest *)
Definition parseJson {A} (parse : string -> option A) (buf : string) : M A :=
  match parse buf with
  | Some v => mret v
  | None => throw (JsError "SyntaxError")
  end.

Definition processVersionManifest (a : ResolverArgs) (installerOutputDir : string)
  : M (VersionManifestFG3 * Module) :=
  let versionManifestPath := getVersionManifestPath a installerOutputDir in
  versionManifestBuf ← readFile versionManifestPath;
  versionManifest ← parseJson (parseFG3 EX) versionManifestBuf;
  st ← lstat versionManifestPath;
  let versionManifestModule :=
    mkModule (artifactVersion LC) "Minecraft NeoForge (version.json)" VersionManifest None
      (generateArtifact LY versionManifestBuf st
         (getVersionManifestURL LY (baseUrl a) (minecraftVersion a) (neoforgeVersion a)))
      None in
  let destination := getVersionManifest LY (minecraftVersion a) (neoforgeVersion a) in
  copy versionManifestPath destination;;
  mret (versionManifest, versionManifestModule).

(** *** getMCPVersion: the argument after the first '--fml.mcpVersion';
    [None] is null or undefined. *)
Fixpoint getMCPVersion (args : list string) : option string :=
  match args with
  | [] => None
  | x :: rest =>
      if String.eqb x "--fml.mcpVersion" then head rest
      else getMCPVersion rest
  end.

(** *** processNeoForgeModule *)

(** [this.generatedFiles!]: using the list when it is undefined raises. *)
Definition expectedFiles (r : Resolver) : M (list GeneratedFile) :=
  match generatedFiles r with
  | Some files => mret files
  | None => throw (TypeError "generatedFiles is undefined")
  end.

(** The callback of [generatedFiles.map]: [f.version.includes(...)] raises
    when the version is undefined. *)
Definition substituteMcpVersion (mcpVersion : string) (f : GeneratedFile) : Res GeneratedFile :=
  match gf_version f with
  | None => Err (TypeError "Cannot read properties of undefined (reading 'includes')")
  | Some v =>
      Ok (if includes WILDCARD_MCP_VERSION v
          then mkGeneratedFile (gf_name f) (gf_group f) (gf_artifact f)
                 (Some (replaceFirst WILDCARD_MCP_VERSION mcpVersion v))
                 (gf_classifiers f) (gf_skipIfNotPresent f) (gf_classpath f)
          else f)
  end.

(** [list.map(f)] for a callback that can raise: the first error ends it. *)
Fixpoint mapRes {A B} (f : A -> Res B) (l : list A) : Res (list B) :=
  match l with
  | [] => Ok []
  | x :: rest =>
      match f x with
      | Err e => Err e
      | Ok y =>
          match mapRes f rest with
          | Err e => Err e
          | Ok ys => Ok (y :: ys)
          end
      end
  end.

(** Resolution of the wildcards in the expected-file templates. *)
Definition resolveWildcards (r : Resolver) (versionManifest : VersionManifestFG3)
  : M (list GeneratedFile) :=
  match wildcardsInUse r with
  | Some wild =>
      if existsb (String.eqb WILDCARD_MCP_VERSION) wild then
        match getMCPVersion (vm3_game versionManifest) with
        | None => throw (JsError "MCP Version not found.. did neoforge change their format?")
        | Some mcpVersion =>
            files ← expectedFiles r;
            liftRes (mapRes (substituteMcpVersion mcpVersion) files)
        end
      else expectedFiles r
  | None => expectedFiles r
  end.

Definition targetPath (libDir : string) (entry : GeneratedFile) (c : option string) : string :=
  join libDir (mavenComponentsAsNormalizedPath LY (gf_group entry) (gf_artifact entry)
                 (gf_version entry) c).

Definition generatedModule (a : ResolverArgs) (entry : GeneratedFile) (c : option string)
    (buf : string) (st : Stats) : Module :=
  mkModule
    (Some (mavenComponentsToIdentifier LY (gf_group entry) (gf_artifact entry)
             (gf_version entry) c None))
    ("Minecraft NeoForge (" +:+ gf_name entry +:+ ")")
    Library
    (Some (default true (gf_classpath entry)))
    (generateArtifact LY buf st
       (getArtifactUrlByComponents LY (baseUrl a) (gf_group entry) (gf_artifact entry)
          (gf_version entry) c None))
    (Some []).

(** The loop labelled [classifierLoop]: returns the module that was located,
    if any, and the paths that were tried. *)
Fixpoint classifierLoop (a : ResolverArgs) (libDir : string) (entry : GeneratedFile)
    (classifiers : list (option string)) (targetLocations : list string)
  : M (option Module * list string) :=
  match classifiers with
  | [] => mret (None, targetLocations)
  | c :: rest =>
      let targetLocalPath := targetPath libDir entry c in
      let targetLocations := targetLocations ++ [targetLocalPath] in
      ex ← pathExists targetLocalPath;
      if (ex : bool) then
        buf ← readFile targetLocalPath;
        st ← lstat targetLocalPath;
        let destination :=
          getArtifactByComponents LY (gf_group entry) (gf_artifact entry) (gf_version entry) c None in
        copy targetLocalPath destination;;
        mret (Some (generatedModule a entry c buf st), targetLocations)
      else classifierLoop a libDir entry rest targetLocations
  end.

Definition requiredFileError (entry : GeneratedFile) (targetLocations : list string) : Error :=
  JsError ("Required file " +:+ gf_name entry +:+ " not found at any expected location:"
             +:+ nlTab +:+ joinWith nlTab targetLocations).

(** One iteration of the loop over [generatedFiles]. *)
Definition processEntry (a : ResolverArgs) (libDir : string) (entry : GeneratedFile)
  : M (option Module) :=
  '(found, targetLocations) ← classifierLoop a libDir entry (gf_classifiers entry) [];
  let located := match found with Some _ => true | None => false end in
  if negb (truthy (gf_skipIfNotPresent entry)) && negb located
  then throw (requiredFileError entry targetLocations)
  else mret found.

Fixpoint generatedFilesLoop (a : ResolverArgs) (libDir : string) (entries : list GeneratedFile)
    (mdls : list Module) : M (list Module) :=
  match entries with
  | [] => mret mdls
  | entry :: rest =>
      found ← processEntry a libDir entry;
      generatedFilesLoop a libDir rest
        (match found with Some m => mdls ++ [m] | None => mdls end)
  end.

(** [mdls.shift()!] then re-tagging; on an empty list the shift yields
    undefined and the assignment raises. *)
Definition rootOf (mdls : list Module) : M Module :=
  match mdls with
  | [] => throw (TypeError "Cannot set properties of undefined (setting 'type')")
  | neoforgeModule :: rest =>
      mret (setSubModules (Some rest) (setType NeoForgeHosted neoforgeModule))
  end.

Definition processNeoForgeModule (r : Resolver) (versionManifest : VersionManifestFG3)
    (installerOutputDir : string) : M Module :=
  let libDir := join installerOutputDir "libraries" in
  files ← resolveWildcards r versionManifest;
  mdls ← generatedFilesLoop (r_args r) libDir files [];
  rootOf mdls.

(** *** processLibraries *)
Fixpoint processLibraries (a : ResolverArgs) (libDir : string) (libs : list LibraryFG3)
    (mdls : list Module) : M (list Module) :=
  match libs with
  | [] => mret mdls
  | entry :: rest =>
      if nonEmpty (lib3_url entry) then
        let targetLocalPath := join libDir (lib3_path entry) in
        ex ← pathExists targetLocalPath;
        if negb ex then
          throw (JsError ("Expected library " +:+ lib3_name entry +:+ " not found!"))
        else
          let components := getMavenComponents LY (lib3_name entry) in
          buf ← readFile targetLocalPath;
          st ← lstat targetLocalPath;
          let mdl :=
            mkModule (Some (lib3_name entry))
              ("Minecraft NeoForge (" +:+ mc_artifact components +:+ ")")
              Library None
              (generateArtifact LY buf st
                 (getArtifactUrlByComponents LY (baseUrl a) (mc_group components)
                    (mc_artifact components) (Some (mc_version components))
                    (mc_classifier components) (mc_extension components)))
              None in
          let destination :=
            getArtifactByComponents LY (mc_group components) (mc_artifact components)
              (Some (mc_version components)) (mc_classifier components)
              (mc_extension components) in
          copy targetLocalPath destination;;
          processLibraries a libDir rest (mdls ++ [mdl])
      else processLibraries a libDir rest mdls
  end.

(** [subModules?.unshift(m)] and [subModules?.concat(l)] *)
Definition unshiftSub (m : Module) (root : Module) : Module :=
  setSubModules (option_map (cons m) (m_subModules root)) root.
Definition concatSub (l : list Module) (root : Module) : Module :=
  setSubModules (option_map (fun subs => subs ++ l) (m_subModules root)) root.

(** *** processWithInstaller *)

(** The cache check and, when needed, the installer run. *)
Definition installPhase (a : ResolverArgs) (installerPath cacheDir : string) : M unit :=
  cached ← pathExists cacheDir;
  doInstall ← (if (cached : bool) then
                 if invalidateCache a then remove cacheDir;; mret true
                 else mret false
               else mkdirs cacheDir;; mret true);
  let installerOutputDir := cacheDir in
  if (doInstall : bool) then
    let workingInstaller := join installerOutputDir (basename installerPath) in
    copy installerPath workingInstaller;;
    writeFile (join installerOutputDir "launcher_profiles.json") "{}";;
    executeInstaller workingInstaller
  else mret tt.

Definition processWithInstaller (r : Resolver) (installerPath : string) : M Module :=
  let a := r_args r in
  let cacheDir := getNeoForgeCacheDirectory LY (artifactVersion LC) in
  installPhase a installerPath cacheDir;;
  let installerOutputDir := cacheDir in
  verifyInstallerRan a installerOutputDir;;
  versionManifestTuple ← processVersionManifest a installerOutputDir;
  let versionManifest := versionManifestTuple.1 in
  neoforgeModule ← processNeoForgeModule r versionManifest installerOutputDir;
  let neoforgeModule := unshiftSub versionManifestTuple.2 neoforgeModule in
  libs ← processLibraries a (join installerOutputDir "libraries")
            (vm3_libraries versionManifest) [];
  let neoforgeModule := concatSub libs neoforgeModule in
  (if discardOutput a then remove installerOutputDir else mret tt);;
  mret neoforgeModule.

(** *** processWithoutInstaller *)

(** The block that obtains the universal jar: reuse the local copy when its
    SHA-1 is the one the manifest declares, download otherwise. *)
Definition obtainUniversal (universalLocalPath declaredSha1 : string) : M string :=
  ex ← artifactExists universalLocalPath;
  neoforgeUniversalBuffer ←
    (if (ex : bool) then
       localUniBuf ← readFile universalLocalPath;
       if negb (String.eqb (sha1 EX localUniBuf) declaredSha1)
       then mret None
       else mret (Some localUniBuf)
     else mret None);
  match neoforgeUniversalBuffer with
  | Some buf => mret buf
  | None =>
      downloadArtifactByComponents REMOTE_REPOSITORY (NEOFORGE_GROUP LC) (NEOFORGE_ARTIFACT LC)
        (artifactVersion LC) "universal" "jar";;
      readFile universalLocalPath
  end.

(** The id, the url and the module of a library, as both library loops
    build them. *)
Definition properId (name extension : string) : string :=
  let mavenComponents := getMavenComponents LY name in
  mavenComponentsToIdentifier LY (mc_group mavenComponents) (mc_artifact mavenComponents)
    (Some (mc_version mavenComponents)) (mc_classifier mavenComponents) (Some extension).

Definition libraryUrl (a : ResolverArgs) (name extension : string) : string :=
  let mavenComponents := getMavenComponents LY name in
  getArtifactUrlByComponents LY (baseUrl a) (mc_group mavenComponents)
    (mc_artifact mavenComponents) (Some (mc_version mavenComponents))
    (mc_classifier mavenComponents) (Some extension).

Definition libraryModule (a : ResolverArgs) (name extension buf : string) (st : Stats) : Module :=
  let mavenComponents := getMavenComponents LY name in
  mkModule (Some (properId name extension))
    ("Minecraft NeoForge (" +:+ mc_artifact mavenComponents +:+ ")")
    Library None
    (generateArtifact LY buf st (libraryUrl a name extension))
    None.

(** The body of the library loop, after the [continue] test. *)
Definition processLibraryFG3 (a : ResolverArgs) (lib : LibraryFG3) : M Module :=
  let extension := "jar"%string in
  let localPath := getArtifactById LY (lib3_name lib) extension in
  ex ← artifactExists localPath;
  queueDownload ←
    (if negb (negb ex) then
       libBuf ← readFile localPath;
       if negb (String.eqb (sha1 EX libBuf) (lib3_sha1 lib))
       then mret (true, Some libBuf)
       else mret (false, Some libBuf)
     else mret (true, None));
  libBuf ←
    (if (queueDownload.1 : bool) then
       downloadArtifactDirect (lib3_url lib) (lib3_path lib);;
       readFile localPath
     else
       match queueDownload.2 with
       | Some buf => mret buf
       | None => throw (TypeError "libBuf is undefined")
       end);
  stats ← lstat localPath;
  mret (libraryModule a (lib3_name lib) extension libBuf stats).

Fixpoint librariesLoopFG3 (a : ResolverArgs) (libs : list LibraryFG3) (subs : list Module)
  : M (list Module) :=
  match libs with
  | [] => mret subs
  | lib :: rest =>
      if String.prefix "net.neoforge.maven:neo:" (lib3_name lib)
      then librariesLoopFG3 a rest subs
      else
        m ← processLibraryFG3 a lib;
        librariesLoopFG3 a rest (subs ++ [m])
  end.

Definition processWithoutInstaller (r : Resolver) (installerPath : string) : M Module :=
  let a := r_args r in
  versionManifestBuf ←
    rethrowAs (getVersionManifestFromJar installerPath)
      (JsError "Failed to find version.json in neoforge installer jar.");
  versionManifest ← parseJson (parseFG3 EX) versionManifestBuf;
  let versionManifestDest := getVersionManifest LY (minecraftVersion a) (neoforgeVersion a) in
  mkdirs (dirname versionManifestDest);;
  writeFile versionManifestDest (printFG3 EX versionManifest);;
  let universalLocalPath := getLocalNeoForge LY (artifactVersion LC) "universal" in
  match List.find (fun val => String.prefix "net.neoforge.maven:neoforge:" (lib3_name val))
                  (vm3_libraries versionManifest) with
  | None => throw (JsError "NeoForge entry not found in version.json!")
  | Some neoforgeMdl =>
      neoforgeUniversalBuffer ← obtainUniversal universalLocalPath (lib3_sha1 neoforgeMdl);
      uniStats ← lstat universalLocalPath;
      let neoforgeModule :=
        mkModule
          (Some (mavenComponentsToIdentifier LY (NEOFORGE_GROUP LC) (NEOFORGE_ARTIFACT LC)
                   (artifactVersion LC) (Some "universal"%string) None))
          "Minecraft NeoForge" NeoForgeHosted None
          (generateArtifact LY neoforgeUniversalBuffer uniStats
             (getArtifactUrlByComponents LY (baseUrl a) (NEOFORGE_GROUP LC) (NEOFORGE_ARTIFACT LC)
                (artifactVersion LC) (Some "universal"%string) None))
          (Some []) in
      manifestBuf ← readFile versionManifestDest;
      manifestStats ← lstat versionManifestDest;
      let versionManifestModule :=
        mkModule (artifactVersion LC) "Minecraft NeoForge (version.json)" VersionManifest None
          (generateArtifact LY manifestBuf manifestStats
             (getVersionManifestURL LY (baseUrl a) (minecraftVersion a) (neoforgeVersion a)))
          None in
      subs ← librariesLoopFG3 a (vm3_libraries versionManifest) [versionManifestModule];
      mret (setSubModules (Some subs) neoforgeModule)
  end.

(** *** process *)
Definition process (r : Resolver) : M Module :=
  let installerPath := getLocalNeoForge LY (artifactVersion LC) "installer" in
  ex ← artifactExists installerPath;
  (if negb ex then
     downloadArtifactByComponents REMOTE_REPOSITORY (NEOFORGE_GROUP LC) (NEOFORGE_ARTIFACT LC)
       (artifactVersion LC) "installer" "jar"
   else mret tt);;
  match generatedFiles r with
  | Some (_ :: _) => processWithInstaller r installerPath
  | _ => processWithoutInstaller r installerPath
  end.

(** ** NeoForgeGradle2Adapter *)

(** *** determineExtension *)
Definition possibleExt : list string := ["jar.pack.xz"; "jar"]%string.

Fixpoint checkLocally (name : string) (exts : list string) : M (option string) :=
  match exts with
  | [] => mret None
  | ext :: rest =>
      ex ← artifactExists (getArtifactById LY name ext);
      if (ex : bool) then mret (Some ext) else checkLocally name rest
  end.

Fixpoint checkRemote (name : string) (exts : list string) : M (option string) :=
  match exts with
  | [] => mret None
  | ext :: rest =>
      ex ← headArtifactById REMOTE_REPOSITORY name ext;
      if (ex : bool) then mret (Some ext) else checkRemote name rest
  end.

Definition determineExtension (lib : LibraryFG2) : M string :=
  match lib2_url lib with
  | None => mret "jar"%string
  | Some _ =>
      l ← checkLocally (lib2_name lib) possibleExt;
      match l with
      | Some ext => mret ext
      | None =>
          rm ← checkRemote (lib2_name lib) possibleExt;
          match rm with
          | Some ext => mret ext
          | None => mret "jar"%string
          end
      end
  end.

Record QueueEntry := mkQueueEntry {
  q_id : string;
  q_localPath : string
}.

Record HashEntry := mkHashEntry {
  h_id : string;
  h_MD5 : string
}.

(** [lib.url || MOJANG_REMOTE_REPOSITORY] *)
Definition libraryRepo (lib : LibraryFG2) : string :=
  match lib2_url lib with
  | Some u => if nonEmpty u then u else MOJANG_REMOTE_REPOSITORY
  | None => MOJANG_REMOTE_REPOSITORY
  end.

(** The hash test of the library loop: is the local copy to be replaced? *)
Definition hashMismatch (postProcess : bool) (checksums : option (list string)) (libBuf : string)
  : bool :=
  if negb postProcess then
    match checksums with
    | Some [c] => negb (String.eqb (sha1 EX libBuf) c)
    | _ => false
    end
  else false.

(** The body of the library loop, after the [continue] test: the module, and
    the queue entry when the library is a compressed one. *)
Definition processLibraryFG2 (a : ResolverArgs) (lib : LibraryFG2)
  : M (Module * option QueueEntry) :=
  extension ← determineExtension lib;
  let localPath := getArtifactById LY (lib2_name lib) extension in
  let postProcess := String.eqb extension "jar.pack.xz" in
  ex ← artifactExists localPath;
  queueDownload ←
    (if negb (negb ex) then
       libBuf ← readFile localPath;
       mret (hashMismatch postProcess (lib2_checksums lib) libBuf, Some libBuf)
     else mret (true, None));
  libBuf ←
    (if (queueDownload.1 : bool) then
       downloadArtifactById (libraryRepo lib) (lib2_name lib) extension;;
       readFile localPath
     else
       match queueDownload.2 with
       | Some buf => mret buf
       | None => throw (TypeError "libBuf is undefined")
       end);
  stats ← lstat localPath;
  let mdl := libraryModule a (lib2_name lib) extension libBuf stats in
  mret (mdl,
        if postProcess
        then Some (mkQueueEntry (properId (lib2_name lib) extension) localPath)
        else None).

Fixpoint librariesLoopFG2 (a : ResolverArgs) (libs : list LibraryFG2)
    (subs : list Module) (postProcessQueue : list QueueEntry)
  : M (list Module * list QueueEntry) :=
  match libs with
  | [] => mret (subs, postProcessQueue)
  | lib :: rest =>
      if String.prefix "net.neoforge:neoforge:" (lib2_name lib)
      then librariesLoopFG2 a rest subs postProcessQueue
      else
        res ← processLibraryFG2 a lib;
        librariesLoopFG2 a rest (subs ++ [res.1])
          (match res.2 with Some q => postProcessQueue ++ [q] | None => postProcessQueue end)
  end.

(** *** processPackXZFiles *)
Fixpoint copyToTemp (tempDir : string) (queue : list QueueEntry) (files : list string)
  : M (list string) :=
  match queue with
  | [] => mret files
  | entry :: rest =>
      let tmpFile := join tempDir (basename (q_localPath entry)) in
      copy (q_localPath entry) tmpFile;;
      copyToTemp tempDir rest (files ++ [tmpFile])
  end.

(** PackXZExtractWrapper.extractUnpack: one run of the external tool over
    all the files. *)
Definition extractUnpack (files : list string) : M unit :=
  fun w =>
    match runUnpack EX files (fs w) with
    | Ok m => (Ok tt, mkWorld m (trace w ++ [EvUnpack files]))
    | Err e => (Err e, mkWorld (fs w) (trace w ++ [EvUnpack files]))
    end.

Definition unpackedPath (tempDir : string) (entry : QueueEntry) : string :=
  let tmpFileName := basename (q_localPath entry) in
  join tempDir (beforeFirst ".pack.xz" tmpFileName).

Fixpoint hashUnpacked (tempDir : string) (queue : list QueueEntry) (accumulator : list HashEntry)
  : M (list HashEntry) :=
  match queue with
  | [] => mret accumulator
  | entry :: rest =>
      buf ← readFile (unpackedPath tempDir entry);
      hashUnpacked tempDir rest (accumulator ++ [mkHashEntry (q_id entry) (md5 EX buf)])
  end.

(** The work done on a non-empty queue. *)
Definition unpackBatch (processingQueue : list QueueEntry) : M (list HashEntry) :=
  let tempDir := getTempDirectory LY in
  ex ← pathExists tempDir;
  (if (ex : bool) then remove tempDir else mret tt);;
  mkdirs tempDir;;
  files ← copyToTemp tempDir processingQueue [];
  extractUnpack files;;
  accumulator ← hashUnpacked tempDir processingQueue [];
  remove tempDir;;
  mret accumulator.

Definition processPackXZFiles (processingQueue : list QueueEntry) : M (list HashEntry) :=
  match processingQueue with
  | [] => mret []
  | _ :: _ => unpackBatch processingQueue
  end.

(** [element.id === id] *)
Definition hasId (id : string) (el : Module) : bool :=
  match m_id el with
  | Some i => String.eqb i id
  | None => false
  end.

(** [subModules.find(el => el.id === id)] followed by [el.artifact.MD5 = h]:
    the first module with that id is patched in place. *)
Fixpoint patchFirst (id h : string) (subs : list Module) : list Module :=
  match subs with
  | [] => []
  | el :: rest =>
      if hasId id el then setMD5 h el :: rest
      else el :: patchFirst id h rest
  end.

(** [subModules.find(el => el.id === id)] on its own. *)
Fixpoint findById (id : string) (subs : list Module) : option Module :=
  match subs with
  | [] => None
  | el :: rest => if hasId id el then Some el else findById id rest
  end.

Definition applyHashes (entries : list HashEntry) (subs : list Module) : list Module :=
  fold_left (fun acc entry => patchFirst (h_id entry) (h_MD5 entry) acc) entries subs.

(** *** getNeoForgeByVersion *)
Definition getNeoForgeByVersion (r : Resolver) : M Module :=
  let a := r_args r in
  let targetLocalPath := getLocalNeoForge LY (artifactVersion LC) "universal" in
  ex ← artifactExists targetLocalPath;
  (if negb ex then
     downloadArtifactByComponents REMOTE_REPOSITORY (NEOFORGE_GROUP LC) (NEOFORGE_ARTIFACT LC)
       (artifactVersion LC) "universal" "jar"
   else mret tt);;
  versionManifestBuf ←
    rethrowAs (getVersionManifestFromJar targetLocalPath)
      (JsError "Failed to find version.json in neoforge universal jar.");
  versionManifest ← parseJson (parseFG2 EX) versionManifestBuf;
  buf ← readFile targetLocalPath;
  st ← lstat targetLocalPath;
  let neoforgeModule :=
    mkModule
      (Some (mavenComponentsToIdentifier LY (NEOFORGE_GROUP LC) (NEOFORGE_ARTIFACT LC)
               (artifactVersion LC) (Some "universal"%string) None))
      "Minecraft NeoForge" NeoForgeHosted None
      (generateArtifact LY buf st
         (getArtifactUrlByComponents LY (baseUrl a) (NEOFORGE_GROUP LC) (NEOFORGE_ARTIFACT LC)
            (artifactVersion LC) (Some "universal"%string) None))
      (Some []) in
  res ← librariesLoopFG2 a (vm2_libraries versionManifest) [] [];
  hashes ← processPackXZFiles res.2;
  mret (setSubModules (Some (applyHashes hashes res.1)) neoforgeModule).

(** *** getModule *)
Definition getModule (r : Resolver) : M Module :=
  match r_impl r with
  | NeoForgeGradle2Adapter => getNeoForgeByVersion r
  | NeoForgeGradle3Adapter => process r
  end.

(** *** Derived notions used to state the properties *)

Definition installerNotRunError (installerOutputDir : string) : Error :=
  JsError ("NeoForge was either not installed or installed to the wrong location. When the neoforge installer opens, you MUST set the installation directory to "
             +:+ installerOutputDir).


Definition afterDiscard (a : ResolverArgs) (dir : string) (w : World) : World :=
  if discardOutput a
  then mkWorld (removePath (fs w) dir) (trace w ++ [EvRemove dir])
  else w.

Definition queueEntryFor (a : ResolverArgs) (lib : LibraryFG2) (ext buf : string)
  : option QueueEntry :=
  if String.eqb ext "jar.pack.xz"
  then Some (mkQueueEntry (properId (lib2_name lib) ext)
               (getArtifactById LY (lib2_name lib) ext))
  else None.






End Staging.

(** ** Sample collaborators, used to run the model on concrete inputs *)

Definition sampleVersionUtil : VersionUtil := {|
  isOneDotTwelveFG2 := fun v => String.eqb v "14.23.5.2847";
  isVersionAcceptable := fun v acceptable =>
    (getMajor v =? 1) && existsb (Z.eqb (getMinor v)) acceptable;
  versionGte := fun v min =>
    match min with
    | None => Err (TypeError "Cannot read properties of undefined (reading 'split')")
    | Some m => Ok (String.eqb v m)
    end;
  mcToString := fun v =>
    match getMajor v, getMinor v with
    | 1, 12 => "1.12"%string
    | 1, 16 => "1.16"%string
    | 1, 20 => "1.20"%string
    | 1, 21 => "1.21"%string
    | _, _ => "other"%string
    end
|}.

Definition sampleConsts : LibRepoConsts := {|
  NEOFORGE_GROUP := "net.neoforge";
  NEOFORGE_ARTIFACT := "neoforge";
  NEOFMLCORE_ARTIFACT := "neofmlcore";
  FMLCORE_ARTIFACT := "fmlcore";
  JAVAFMLLANGUAGE_ARTIFACT := "javafmllanguage";
  MCLANGUAGE_ARTIFACT := "mclanguage";
  LOWCODELANGUAGE_ARTIFACT := "lowcodelanguage";
  MINECRAFT_GROUP := "net.minecraft";
  MINECRAFT_CLIENT_ARTIFACT := "client";
  artifactVersion := None
|}.

Definition sampleArgs (mv : MinecraftVersion) (nv : string) : ResolverArgs :=
  mkArgs "/root" "repo" "http://host/" mv nv false false.

Definition emptyWorld : World := mkWorld ∅ [].

(** A Maven-style layout under /root/repo; an undefined version is rendered
    as a template literal renders it. *)
Definition mavenFile (g a : string) (version : option string) (c : option string)
    (ext : string) : string :=
  let v := jsString version in
  g +:+ "/" +:+ a +:+ "/" +:+ v +:+ "/" +:+ a +:+ "-" +:+ v
    +:+ match c with Some c => "-" +:+ c | None => "" end
    +:+ "." +:+ ext.

Fixpoint splitColon (s acc : string) : list string :=
  match s with
  | EmptyString => [acc]
  | String c s' =>
      if Ascii.eqb c ":" then acc :: splitColon s' ""
      else splitColon s' (acc +:+ String c "")
  end.

Definition sampleComponents (id : string) : MavenComponents :=
  let parts := splitColon id "" in
  mkComponents (nth 0 parts "") (nth 1 parts "") (nth 2 parts "")
               (nth_error parts 3) None.

Definition sampleLayout : Layout := {|
  mavenComponentsAsNormalizedPath := fun g a v c => mavenFile g a v c "jar";
  mavenComponentsToIdentifier := fun g a v c e =>
    g +:+ ":" +:+ a +:+ ":" +:+ jsString v
      +:+ match c with Some c => ":" +:+ c | None => "" end
      +:+ match e with Some e => "@" +:+ e | None => "" end;
  getMavenComponents := sampleComponents;
  getLocalNeoForge := fun v c => "/root/repo/lib/" +:+ mavenFile "net.neoforge" "neoforge" v (Some c) "jar";
  getArtifactById := fun id ext =>
    let mc := sampleComponents id in
    "/root/repo/lib/" +:+ mavenFile (mc_group mc) (mc_artifact mc) (Some (mc_version mc))
                            (mc_classifier mc) ext;
  getArtifactByComponents := fun g a v c e =>
    "/root/repo/lib/" +:+ mavenFile g a v c (default "jar"%string e);
  getArtifactUrlByComponents := fun base g a v c e =>
    base +:+ "repo/lib/" +:+ mavenFile g a v c (default "jar"%string e);
  resolveInLibRepo := fun p => "/root/repo/lib/" +:+ p;
  getTempDirectory := "/root/repo/temp";
  getNeoForgeCacheDirectory := fun v => "/root/repo/cache/" +:+ jsString v;
  getFileName := fun mv nv => mcToString sampleVersionUtil mv +:+ "-neoforge-" +:+ nv;
  getVersionManifest := fun mv nv =>
    "/root/repo/versions/" +:+ mcToString sampleVersionUtil mv +:+ "-neoforge-" +:+ nv +:+ ".json";
  getVersionManifestURL := fun base mv nv =>
    base +:+ "repo/versions/" +:+ mcToString sampleVersionUtil mv +:+ "-neoforge-" +:+ nv +:+ ".json";
  generateArtifact := fun buf st url => mkArtifact (st_size st) ("md5:" +:+ buf) url;
  getJavaExecutable := "java"
|}.

(** Externals with a given manifest parser, remote content, answer of the
    remote existence probe, installer and unpack tool. *)
Definition sampleExternals
    (manifest3 : option VersionManifestFG3) (manifest2 : option VersionManifestFG2)
    (remote : option string) (remoteHas : bool)
    (installer : gmap string Node -> gmap string Node)
    (unpack : list string -> gmap string Node -> Res (gmap string Node)) : Externals := {|
  sha1 := fun b => "sha1:" +:+ b;
  md5 := fun b => "md5:" +:+ b;
  parseFG3 := fun _ => manifest3;
  parseFG2 := fun _ => manifest2;
  printFG3 := fun _ => "{}";
  zipEntry := fun _ name => Some name;
  fetchByComponents := fun _ _ _ _ _ _ => remote;
  fetchById := fun _ _ _ => remote;
  fetchDirect := fun _ => remote;
  headById := fun _ _ _ => remoteHas;
  runInstaller := fun _ _ => installer;
  runUnpack := unpack
|}.

(** An installer that writes nothing, and an unpack tool that produces
    nothing. *)
Definition idleInstaller (m : gmap string Node) : gmap string Node := m.
Definition idleUnpack (files : list string) (m : gmap string Node) : Res (gmap string Node) :=
  Ok m.


Definition installerJar : string :=
  "/root/repo/lib/net.neoforge/neoforge/undefined/neoforge-undefined-installer.jar".

Definition worldWithInstaller : World :=
  mkWorld (<[installerJar := File "installer-bytes"]> ∅) [].

Definition args1211 : ResolverArgs := sampleArgs (mkVersion 1 21 1) "21.0.1".

Definition resolver1211 : Resolver :=
  mkResolver NeoForgeGradle3Adapter args1211
    (configure sampleVersionUtil sampleConsts (mkVersion 1 21 1)).1
    (configure sampleVersionUtil sampleConsts (mkVersion 1 21 1)).2.

Definition cacheDir1211 : string := "/root/repo/cache/undefined".

Definition libDir1211 : string := join cacheDir1211 "libraries".

Definition sampleManifest3 : VersionManifestFG3 :=
  mkManifestFG3 []
    [ mkLibraryFG3 "org.example:lib:1.0" "org.example/lib/1.0/lib-1.0.jar"
        "https://host/lib-1.0.jar" "sha1:lib-bytes" ].

Definition stagedFiles (libDir : string) (files : list GeneratedFile) : list (string * Node) :=
  map (fun e => (targetPath sampleLayout libDir e (hd None (gf_classifiers e)),
                 File (gf_name e)))
      files.

Definition cachedWorld : World :=
  mkWorld
    (list_to_map
       ((getVersionManifestPath sampleLayout args1211 cacheDir1211, File "manifest-json")
          :: (installerJar, File "installer-bytes")
          :: (join libDir1211 "org.example/lib/1.0/lib-1.0.jar", File "lib-bytes")
          :: stagedFiles libDir1211 (default [] (generatedFiles resolver1211))))
    [].

Definition externals1211 : Externals :=
  sampleExternals (Some sampleManifest3) None None false idleInstaller idleUnpack.

Definition afterIdleInstall : World :=
  (installPhase sampleLayout (sampleExternals None None None false idleInstaller idleUnpack)
     args1211 installerJar cacheDir1211 worldWithInstaller).2.

(** The worlds a run on the cached output goes through. *)
Definition world1211_installed : World :=
  (installPhase sampleLayout externals1211 args1211 installerJar cacheDir1211 cachedWorld).2.

Definition world1211_verified : World :=
  (verifyInstallerRan sampleLayout args1211 cacheDir1211 world1211_installed).2.

Definition world1211_manifest : World :=
  (processVersionManifest sampleConsts sampleLayout externals1211 args1211 cacheDir1211
     world1211_verified).2.

Definition world1211_files : World :=
  (generatedFilesLoop sampleLayout args1211 libDir1211
     (default [] (generatedFiles resolver1211)) [] world1211_manifest).2.

Definition world1211_libraries : World :=
  (processLibraries sampleLayout args1211 libDir1211 (vm3_libraries sampleManifest3) []
     world1211_files).2.

Definition slimEntry (skip : option bool) : GeneratedFile :=
  gf "client slim" "net.minecraft" "client" (Some "1.20.1-20230612"%string)
     [Some "slim"%string; Some "slim-stable"%string] skip (Some false).

Definition slimStablePath : string :=
  targetPath sampleLayout libDir1211 (slimEntry None) (Some "slim-stable"%string).

Definition worldSlimStable : World :=
  mkWorld (<[slimStablePath := File "slim-bytes"]> ∅) [].


Definition isOk {A} (r : Res A) : bool :=
  match r with Ok _ => true | Err _ => false end.
Definition resOr {A} (d : A) (r : Res A) : A :=
  match r with Ok a => a | Err _ => d end.

(** ** A stale local copy and a fresh remote one *)

Definition externalsFresh : Externals :=
  sampleExternals None None (Some "fresh"%string) true idleInstaller idleUnpack.

Definition universalPath : string := getLocalNeoForge sampleLayout None "universal".


Definition exampleLib2 (url : option string) (checksums : option (list string)) : LibraryFG2 :=
  mkLibraryFG2 "org.example:lib:1.0" url checksums.

Definition exampleLibPath (ext : string) : string :=
  getArtifactById sampleLayout "org.example:lib:1.0" ext.

Definition worldWith (p content : string) : World :=
  mkWorld (<[p := File content]> ∅) [].

(** ** A queue of one compressed library *)

Definition packedPath : string := exampleLibPath "jar.pack.xz".




(** ** A manifest whose only library is the loader's own record *)

Definition args1165 : ResolverArgs := sampleArgs (mkVersion 1 16 5) "36.2.20".

Definition resolver1165 : Resolver :=
  mkResolver NeoForgeGradle3Adapter args1165
    (configure sampleVersionUtil sampleConsts (mkVersion 1 16 5)).1
    (configure sampleVersionUtil sampleConsts (mkVersion 1 16 5)).2.

Definition loaderRecord : LibraryFG3 :=
  mkLibraryFG3 "net.neoforge.maven:neoforge:1.16.5-36.2.20"
    "net.neoforge.maven/neoforge/1.16.5-36.2.20/neoforge-1.16.5-36.2.20.jar"
    "https://maven.neoforge.net/net/neoforge/maven/neoforge-1.16.5-36.2.20.jar"
    "sha1:universal-bytes".

Definition externals1165 : Externals :=
  sampleExternals (Some (mkManifestFG3 [] [loaderRecord])) None
    (Some "universal-bytes"%string) false idleInstaller idleUnpack.

Definition world1165 : World :=
  mkWorld
    (<[installerJar := File "installer-bytes"]>
       (<[universalPath := File "universal-bytes"]> ∅))
    [].

(** ** Notions used to state further properties *)

(** The test of [process]: is the installer to be run? *)
Definition usesInstaller (r : Resolver) : bool :=
  match generatedFiles r with
  | Some (_ :: _) => true
  | _ => false
  end.

(** The Gradle3 resolver as its constructor leaves it. *)
Definition configuredResolver (VU : VersionUtil) (LC : LibRepoConsts) (a : ResolverArgs)
  : Resolver :=
  mkResolver NeoForgeGradle3Adapter a
    (configure VU LC (minecraftVersion a)).1 (configure VU LC (minecraftVersion a)).2.

(** An expected file without its version. *)
Definition entryShape (f : GeneratedFile)
  : string * string * string * list (option string) * option bool * option bool :=
  (gf_name f, gf_group f, gf_artifact f, gf_classifiers f, gf_skipIfNotPresent f,
   gf_classpath f).

(** Does the version of an expected file hold the wildcard? *)
Definition carriesWildcard (f : GeneratedFile) : bool :=
  match gf_version f with
  | Some v => includes WILDCARD_MCP_VERSION v
  | None => false
  end.

(** A module without the MD5 of its artifact. *)
Definition withoutMD5 (m : Module) : Module := setMD5 "" m.

Definition isTypeError (e : Error) : bool :=
  match e with TypeError _ => true | _ => false end.

(** ** Further sample data *)

Definition args1201 : ResolverArgs := sampleArgs (mkVersion 1 20 1) "47.1.106".

Definition manifestWithMcp : VersionManifestFG3 :=
  mkManifestFG3 ["--launchTarget"; "forgeclient"; "--fml.mcpVersion"; "20230612.114412"]%string [].

Definition resolver1201 : Resolver :=
  configuredResolver sampleVersionUtil sampleConsts args1201.

(** A resolver whose expected files all have a version, two of them with the
    wildcard. *)
Definition wildcardResolver : Resolver :=
  mkResolver NeoForgeGradle3Adapter args1201
    (Some [ gf "client data" "net.minecraft" "client" (Some "1.20.1"%string)
               [Some "data"%string] (Some true) (Some false);
            gf "client srg" "net.minecraft" "client" (Some "1.20.1-${mcpVersion}"%string)
               [Some "srg"%string] None (Some false);
            gf "client slim" "net.minecraft" "client" (Some "1.20.1-${mcpVersion}"%string)
               [Some "slim"%string; Some "slim-stable"%string] None (Some false) ])
    (Some [WILDCARD_MCP_VERSION]).

Definition resolvedWildcardFiles : list GeneratedFile :=
  resOr [] (resolveWildcards wildcardResolver manifestWithMcp emptyWorld).1.

(** Externals whose remote repositories have nothing. *)
Definition externalsOffline : Externals :=
  sampleExternals None None None false idleInstaller idleUnpack.

(** A Gradle2 run: game version 1.12.2, one plain library. *)
Definition args1122 : ResolverArgs := sampleArgs (mkVersion 1 12 2) "14.23.5.2847".

Definition resolver1122 : Resolver := mkResolver NeoForgeGradle2Adapter args1122 None None.

Definition sampleManifest2 : VersionManifestFG2 :=
  mkManifestFG2 [exampleLib2 None None].

Definition externals1122 : Externals :=
  sampleExternals None (Some sampleManifest2) (Some "fresh"%string) false
    idleInstaller idleUnpack.

Definition world1122_probed : World :=
  mkWorld (fs (worldWith universalPath "universal-bytes")) [EvExists universalPath].

Definition loop1122 : Res (list Module * list QueueEntry) * World :=
  librariesLoopFG2 sampleLayout externals1122 args1122 (vm2_libraries sampleManifest2) [] []
    world1122_probed.

(** A Gradle2 library loop over one compressed library that is on disk. *)
Definition packedLoop : Res (list Module * list QueueEntry) * World :=
  librariesLoopFG2 sampleLayout externalsFresh args1122
    [exampleLib2 (Some "https://host/"%string) None] [] []
    (worldWith packedPath "packed-bytes").


(** The 1.21.1 run with the output discarded at the end. *)
Definition args1211d : ResolverArgs :=
  mkArgs "/root" "repo" "http://host/" (mkVersion 1 21 1) "21.0.1" true false.

Definition resolver1211d : Resolver :=
  configuredResolver sampleVersionUtil sampleConsts args1211d.

Definition discarded1211_installed : World :=
  (installPhase sampleLayout externals1211 args1211d installerJar cacheDir1211 cachedWorld).2.

Definition discarded1211_verified : World :=
  (verifyInstallerRan sampleLayout args1211d cacheDir1211 discarded1211_installed).2.

Definition discarded1211_manifest : World :=
  (processVersionManifest sampleConsts sampleLayout externals1211 args1211d cacheDir1211
     discarded1211_verified).2.

Definition discarded1211_files : World :=
  (generatedFilesLoop sampleLayout args1211d libDir1211
     (default [] (generatedFiles resolver1211d)) [] discarded1211_manifest).2.

Definition discarded1211_libraries : World :=
  (processLibraries sampleLayout args1211d libDir1211 (vm3_libraries sampleManifest3) []
     discarded1211_files).2.

(** Externals for a jar that holds no version.json. *)
Definition externalsNoEntry : Externals := {|
  sha1 := sha1 externalsOffline;
  md5 := md5 externalsOffline;
  parseFG3 := parseFG3 externalsOffline;
  parseFG2 := parseFG2 externalsOffline;
  printFG3 := printFG3 externalsOffline;
  zipEntry := fun _ _ => None;
  fetchByComponents := fetchByComponents externalsOffline;
  fetchById := fetchById externalsOffline;
  fetchDirect := fetchDirect externalsOffline;
  headById := headById externalsOffline;
  runInstaller := runInstaller externalsOffline;
  runUnpack := runUnpack externalsOffline
|}.

(** An expected file that is absent and may be skipped, and a library record
    without a download url. *)
Definition absentEntry : GeneratedFile :=
  gf "client extra" "net.minecraft" "client" (Some "1.20.1-20230612"%string)
     [Some "extra"%string] (Some true) None.





Definition neoRecord : LibraryFG3 :=
  mkLibraryFG3 "net.neoforge.maven:neo:1.0" "net.neoforge.maven/neo/1.0/neo-1.0.jar"
    "https://maven.neoforge.net/neo-1.0.jar" "sha1:neo".

(** ** Further worlds and manifests for the runs on concrete inputs *)














(** * Properties *)

Ltac run :=
  repeat (unfold mbind, M_bind, mret, M_ret, throw, liftRes, emitAll, emit; simpl).

(** One case split on the next primitive of a run that is known to return. *)
Ltac crack_step :=
  match goal with
  | |- (Err _, _) = (Ok _, _) -> _ => discriminate
  | |- context [if existsPath ?m ?p then _ else _] => destruct (existsPath m p)
  | |- context [match readFile ?p ?w with _ => _ end] =>
      destruct (readFile p w) as [[?|?] ?]
  | |- context [match lstat ?p ?w with _ => _ end] =>
      destruct (lstat p w) as [[?|?] ?]
  | |- context [match copy ?s ?d ?w with _ => _ end] =>
      destruct (copy s d w) as [[[]|?] ?]
  | |- context [match downloadTo ?d ?c ?w with _ => _ end] =>
      destruct (downloadTo d c w) as [[[]|?] ?]
  | |- context [if ?b then _ else _] => destruct b
  end; cbn [fst snd negb fs trace].
Ltac crack := repeat crack_step.

(** Splitting the outcome of a run into its result and its final world. *)
Lemma run_eq {A} (x : Res A * World) (a : A) : x.1 = Ok a -> x = (Ok a, x.2).
Proof. destruct x as [r w]. cbn. now intros ->. Qed.

Lemma run_fst {A} (x : Res A * World) (r : Res A) (w : World) : x = (r, w) -> x.1 = r.
Proof. now intros ->. Qed.


Section RegistryFacts.

Context (VU : VersionUtil) (LC : LibRepoConsts).

Lemma resolverLoop_first_match (pre post : list AdapterImpl) impl a w :
  (forall i, In i pre -> isForVersion VU i (minecraftVersion a) (neoforgeVersion a) = false) ->
  isForVersion VU impl (minecraftVersion a) (neoforgeVersion a) = true ->
  resolverLoop VU LC (pre ++ impl :: post) a w = new_ VU LC impl a w.
Proof.
  induction pre as [|i pre IH]; intros Hpre Himpl; simpl.
  - now rewrite Himpl.
  - rewrite (Hpre i) by now left.
    apply IH; [|assumption]. intros j Hj. apply Hpre. now right.
Qed.

Lemma resolverLoop_no_match (impls : list AdapterImpl) a w :
  (forall i, In i impls -> isForVersion VU i (minecraftVersion a) (neoforgeVersion a) = false) ->
  resolverLoop VU LC impls a w =
  (Err (JsError ("No forge resolver found for Minecraft "
                   +:+ mcToString VU (minecraftVersion a) +:+ "!")), w).
Proof.
  induction impls as [|i impls IH]; intros Hall; simpl.
  - reflexivity.
  - rewrite (Hall i) by now left. apply IH. intros j Hj. apply Hall. now right.
Qed.

Lemma new__impl impl a w r w' :
  new_ VU LC impl a w = (Ok r, w') -> r_impl r = impl /\ r_args r = a.
Proof.
  unfold new_. run.
  destruct (checkSecurity VU (minecraftVersion a) (neoforgeVersion a) w) as [[[]|e] w1];
    [|discriminate].
  destruct impl; simpl.
  - intros [= <- _]. now split.
  - destruct (configure VU LC (minecraftVersion a)) as [files wild].
    intros [= <- _]. now split.
Qed.

Lemma resolverLoop_impl (impls : list AdapterImpl) a w r w' :
  resolverLoop VU LC impls a w = (Ok r, w') ->
  exists pre post,
    impls = pre ++ r_impl r :: post /\
    (forall i, In i pre -> isForVersion VU i (minecraftVersion a) (neoforgeVersion a) = false) /\
    isForVersion VU (r_impl r) (minecraftVersion a) (neoforgeVersion a) = true.
Proof.
  induction impls as [|i impls IH]; simpl; [discriminate|].
  destruct (isForVersion VU i (minecraftVersion a) (neoforgeVersion a)) eqn:Hi.
  - intros Hn. apply new__impl in Hn as [<- _].
    exists [], impls. repeat split; [intros j []|assumption].
  - intros Hl. destruct (IH Hl) as (pre & post & -> & Hpre & Hacc).
    exists (i :: pre), post. repeat split; [|assumption].
    intros j [<-|Hj]; [assumption|now apply Hpre].
Qed.

(** The first accepting entry of a table is unique. *)
Lemma first_match_unique {A} (f : A -> bool) (pre1 post1 pre2 post2 : list A) x y :
  pre1 ++ x :: post1 = pre2 ++ y :: post2 ->
  (forall i, In i pre1 -> f i = false) -> f x = true ->
  (forall i, In i pre2 -> f i = false) -> f y = true ->
  x = y.
Proof.
  revert pre2. induction pre1 as [|a1 pre1 IH]; intros [|a2 pre2]; simpl.
  - now intros [= -> _].
  - intros [= -> _] _ Hx H2 _. rewrite (H2 a2) in Hx by now left. discriminate.
  - intros [= <- _] H1 _ _ Hy. rewrite (H1 a1) in Hy by now left. discriminate.
  - intros [= _ Heq] H1 Hx H2 Hy.
    apply (IH pre2 Heq); auto.
Qed.

(** C1: [getNeoForgeResolver] walks [NEOFORGE_ADAPTER_IMPL] in order: when an
    entry accepts the (game version, loader version) pair and every entry
    before it rejects the pair, the result is [new impl(...)] for that entry,
    a resolver of that entry whenever the constructor's security check
    returns; when no entry accepts, it fails with the no-resolver-found error
    and leaves the world untouched; and two calls on the same pair that return
    a resolver return one of the same entry. *)
Theorem getNeoForgeResolver_first_match (a : ResolverArgs) (w : World) :
  (forall pre impl post,
      NEOFORGE_ADAPTER_IMPL = pre ++ impl :: post ->
      (forall i, In i pre ->
                 isForVersion VU i (minecraftVersion a) (neoforgeVersion a) = false) ->
      isForVersion VU impl (minecraftVersion a) (neoforgeVersion a) = true ->
      getNeoForgeResolver VU LC a w = new_ VU LC impl a w /\
      (forall w', checkSecurity VU (minecraftVersion a) (neoforgeVersion a) w = (Ok tt, w') ->
                  exists r, getNeoForgeResolver VU LC a w = (Ok r, w') /\
                            r_impl r = impl /\ r_args r = a)) /\
  ((forall i, In i NEOFORGE_ADAPTER_IMPL ->
              isForVersion VU i (minecraftVersion a) (neoforgeVersion a) = false) ->
   getNeoForgeResolver VU LC a w =
   (Err (JsError ("No forge resolver found for Minecraft "
                    +:+ mcToString VU (minecraftVersion a) +:+ "!")), w)) /\
  (forall a2 w2 r1 r2 w1' w2',
      minecraftVersion a2 = minecraftVersion a ->
      neoforgeVersion a2 = neoforgeVersion a ->
      getNeoForgeResolver VU LC a w = (Ok r1, w1') ->
      getNeoForgeResolver VU LC a2 w2 = (Ok r2, w2') ->
      r_impl r1 = r_impl r2).
Proof.
  split; [|split].
  - intros pre impl post Htab Hpre Himpl.
    assert (Hsel : getNeoForgeResolver VU LC a w = new_ VU LC impl a w).
    { unfold getNeoForgeResolver. rewrite Htab. now apply resolverLoop_first_match. }
    split; [exact Hsel|].
    intros w' Hsec. rewrite Hsel. unfold new_. run. rewrite Hsec.
    destruct impl; simpl.
    + eexists. repeat split.
    + destruct (configure VU LC (minecraftVersion a)) as [files wild].
      eexists. repeat split.
  - intros Hall. now apply resolverLoop_no_match.
  - intros a2 w2 r1 r2 w1' w2' Hmv Hnv H1 H2.
    apply resolverLoop_impl in H1 as (pre1 & post1 & Ht1 & Hp1 & Ha1).
    apply resolverLoop_impl in H2 as (pre2 & post2 & Ht2 & Hp2 & Ha2).
    rewrite Hmv, Hnv in Hp2, Ha2.
    eapply (first_match_unique
              (fun i => isForVersion VU i (minecraftVersion a) (neoforgeVersion a)));
      [|exact Hp1|exact Ha1|exact Hp2|exact Ha2].
    now rewrite <- Ht1, <- Ht2.
Qed.

(** C10: on a game version with minor 12 the Gradle2 predicate accepts only a
    loader version that [isOneDotTwelveFG2] classifies as the old 1.12
    generation, the Gradle3 predicate only one that it does not, so the two
    never both accept, and the registry loop gives the same result on the
    table in either order. *)
Theorem isForVersion_exclusive_on_minor_12 (mv : MinecraftVersion) (nv : string) :
  getMinor mv = 12 ->
  (isForVersion_FG2 VU mv nv = true -> isOneDotTwelveFG2 VU nv = true) /\
  (isForVersion_FG3 VU mv nv = true -> isOneDotTwelveFG2 VU nv = false) /\
  ~ (isForVersion_FG2 VU mv nv = true /\ isForVersion_FG3 VU mv nv = true) /\
  (forall a w,
      minecraftVersion a = mv -> neoforgeVersion a = nv ->
      resolverLoop VU LC [NeoForgeGradle2Adapter; NeoForgeGradle3Adapter] a w =
      resolverLoop VU LC [NeoForgeGradle3Adapter; NeoForgeGradle2Adapter] a w).
Proof.
  intros Hminor.
  assert (H2 : isForVersion_FG2 VU mv nv = true -> isOneDotTwelveFG2 VU nv = true).
  { unfold isForVersion_FG2. rewrite Hminor. simpl.
    destruct (isOneDotTwelveFG2 VU nv); [reflexivity|discriminate]. }
  assert (H3 : isForVersion_FG3 VU mv nv = true -> isOneDotTwelveFG2 VU nv = false).
  { unfold isForVersion_FG3. rewrite Hminor. simpl.
    destruct (isOneDotTwelveFG2 VU nv); [discriminate|reflexivity]. }
  repeat split; try assumption.
  - intros [Ha Hb]. rewrite (H2 Ha) in H3. specialize (H3 Hb). discriminate.
  - intros a w Hmv Hnv. simpl. rewrite Hmv, Hnv.
    destruct (isForVersion_FG2 VU mv nv) eqn:E2, (isForVersion_FG3 VU mv nv) eqn:E3;
      try reflexivity.
    rewrite (H2 eq_refl) in H3. specialize (H3 eq_refl). discriminate.
Qed.

(** C8: on a game version of the vulnerable range (1.12 to 1.18) the lookup
    in [patchMatrix] is undefined, so [checkSecurity] hands [versionGte] an
    undefined minimum: it raises when the comparison raises, prints the
    advisory and pauses when the comparison answers false, and is silent when
    it answers true.  Outside the range it returns silently and leaves the
    world as it was. *)
Theorem checkSecurity_vulnerable_lookup_undefined (mv : MinecraftVersion) (nv : string)
    (w : World) :
  (getMajor mv = 1 -> 12 <= getMinor mv <= 18 ->
   patchMatrix !! getMinor mv = None /\
   checkSecurity VU mv nv w =
   match versionGte VU nv None with
   | Err e => (Err e, w)
   | Ok true => (Ok tt, w)
   | Ok false => (Ok tt, mkWorld (fs w) (trace w ++ advisory true (getMinor mv)))
   end) /\
  (~ (getMajor mv = 1 /\ 12 <= getMinor mv <= 18) ->
   checkSecurity VU mv nv w = (Ok tt, w)).
Proof.
  split.
  - intros Hmaj Hmin.
    assert (Hlook : patchMatrix !! getMinor mv = None).
    { unfold patchMatrix.
      rewrite !lookup_insert_ne by lia. apply lookup_empty. }
    split; [exact Hlook|].
    unfold checkSecurity. rewrite Hmaj, Hlook.
    replace (getMinor mv <=? 18) with true by (symmetry; apply Z.leb_le; lia).
    replace (getMinor mv >=? 12) with true by (symmetry; apply Z.geb_le; lia).
    run. destruct (versionGte VU nv None) as [[|]|e]; reflexivity.
  - intros Hnot. unfold checkSecurity.
    destruct ((getMajor mv =? 1) && ((getMinor mv <=? 18) && (getMinor mv >=? 12))) eqn:E.
    + exfalso. apply Hnot.
      apply andb_true_iff in E as [E1 E2]. apply andb_true_iff in E2 as [E2 E3].
      apply Z.eqb_eq in E1. apply Z.leb_le in E2. apply Z.geb_le in E3. lia.
    + reflexivity.
Qed.

End RegistryFacts.

(** ** Witnesses for the registry *)

Lemma getNeoForgeResolver_first_match_witness :
  (getNeoForgeResolver sampleVersionUtil sampleConsts
     (sampleArgs (mkVersion 1 21 1) "21.0.1") emptyWorld =
   new_ sampleVersionUtil sampleConsts NeoForgeGradle3Adapter
     (sampleArgs (mkVersion 1 21 1) "21.0.1") emptyWorld /\
   exists r,
     getNeoForgeResolver sampleVersionUtil sampleConsts
       (sampleArgs (mkVersion 1 21 1) "21.0.1") emptyWorld = (Ok r, emptyWorld) /\
     r_impl r = NeoForgeGradle3Adapter /\
     r_args r = sampleArgs (mkVersion 1 21 1) "21.0.1") /\
  getNeoForgeResolver sampleVersionUtil sampleConsts
    (sampleArgs (mkVersion 2 0 0) "1.0.0") emptyWorld =
  (Err (JsError "No forge resolver found for Minecraft other!"), emptyWorld).
Proof.
  split.
  - destruct (proj1 (getNeoForgeResolver_first_match sampleVersionUtil sampleConsts
                       (sampleArgs (mkVersion 1 21 1) "21.0.1") emptyWorld)
                    [NeoForgeGradle2Adapter] NeoForgeGradle3Adapter [])
      as [Hsel Hret].
    + reflexivity.
    + intros i [<-|[]]. reflexivity.
    + reflexivity.
    + split; [exact Hsel|]. apply Hret. reflexivity.
  - apply (proj1 (proj2 (getNeoForgeResolver_first_match sampleVersionUtil sampleConsts
                           (sampleArgs (mkVersion 2 0 0) "1.0.0") emptyWorld))).
    intros i [<-|[<-|[]]]; reflexivity.
Defined.

Lemma isForVersion_exclusive_on_minor_12_witness :
  isForVersion_FG2 sampleVersionUtil (mkVersion 1 12 2) "14.23.5.2847" = true /\
  isForVersion_FG3 sampleVersionUtil (mkVersion 1 12 2) "14.23.5.2847" = false /\
  resolverLoop sampleVersionUtil sampleConsts
    [NeoForgeGradle2Adapter; NeoForgeGradle3Adapter]
    (sampleArgs (mkVersion 1 12 2) "14.23.5.2847") emptyWorld =
  resolverLoop sampleVersionUtil sampleConsts
    [NeoForgeGradle3Adapter; NeoForgeGradle2Adapter]
    (sampleArgs (mkVersion 1 12 2) "14.23.5.2847") emptyWorld.
Proof.
  split; [reflexivity|]. split; [reflexivity|].
  apply (proj2 (proj2 (proj2 (isForVersion_exclusive_on_minor_12 sampleVersionUtil sampleConsts
                                (mkVersion 1 12 2) "14.23.5.2847" eq_refl))));
    reflexivity.
Defined.

Lemma checkSecurity_vulnerable_lookup_undefined_witness :
  (patchMatrix !! 16 = None /\
   checkSecurity sampleVersionUtil (mkVersion 1 16 5) "36.2.20" emptyWorld =
   (Err (TypeError "Cannot read properties of undefined (reading 'split')"), emptyWorld)) /\
  checkSecurity sampleVersionUtil (mkVersion 1 21 1) "21.0.1" emptyWorld = (Ok tt, emptyWorld).
Proof.
  split.
  - apply (proj1 (checkSecurity_vulnerable_lookup_undefined sampleVersionUtil
                    (mkVersion 1 16 5) "36.2.20" emptyWorld)); simpl; [reflexivity|lia].
  - apply (proj2 (checkSecurity_vulnerable_lookup_undefined sampleVersionUtil
                    (mkVersion 1 21 1) "21.0.1" emptyWorld)).
    simpl. intros [_ H]. lia.
Defined.

(** ** Facts about paths and the file system *)

Lemma prefix_spec (s1 s2 : string) :
  String.prefix s1 s2 = true <-> exists t, s2 = s1 +:+ t.
Proof.
  revert s2. induction s1 as [|a s1 IH]; intros s2.
  - destruct s2; simpl; split; eauto.
  - destruct s2 as [|b s2]; simpl.
    + split; [discriminate|]. intros [t Ht]. discriminate.
    + destruct (ascii_dec a b) as [->|Hne].
      * split.
        -- intros H. apply IH in H as [t ->]. now exists t.
        -- intros [t Ht]. injection Ht as ->. apply IH. now exists t.
      * split; [discriminate|]. intros [t Ht]. injection Ht as Hab _. now destruct Hne.
Qed.

Lemma append_assoc (a b c : string) : (a +:+ b) +:+ c = a +:+ (b +:+ c).
Proof.
  induction a as [|x a IH]; [reflexivity|].
  change ((String x a +:+ b) +:+ c) with (String x ((a +:+ b) +:+ c)).
  change (String x a +:+ b +:+ c) with (String x (a +:+ b +:+ c)).
  now rewrite IH.
Qed.

Lemma under_refl (p : string) : under p p = true.
Proof. unfold under. now rewrite String.eqb_refl. Qed.

Lemma under_trans (d p k : string) :
  under d p = true -> under p k = true -> under d k = true.
Proof.
  unfold under. intros Hdp Hpk.
  apply orb_true_iff in Hdp as [Hdp|Hdp].
  { apply String.eqb_eq in Hdp. now subst. }
  apply orb_true_iff in Hpk as [Hpk|Hpk].
  { apply String.eqb_eq in Hpk. subst. rewrite Hdp. apply orb_true_r. }
  apply prefix_spec in Hdp as [t ->]. apply prefix_spec in Hpk as [u ->].
  apply orb_true_iff. right. apply prefix_spec.
  exists (t +:+ "/" +:+ u). now rewrite !append_assoc.
Qed.

Lemma existsPath_spec (m : gmap string Node) (p : string) :
  existsPath m p = true <-> exists k n, m !! k = Some n /\ under p k = true.
Proof.
  unfold existsPath. rewrite existsb_exists. split.
  - intros [[k n] [Hin Hu]]. exists k, n. split; [|exact Hu].
    apply elem_of_map_to_list. now apply list_elem_of_In.
  - intros (k & n & Hk & Hu). exists (k, n). split; [|exact Hu].
    apply list_elem_of_In. now apply elem_of_map_to_list.
Qed.

Lemma existsPath_file (m : gmap string Node) (p : string) (n : Node) :
  m !! p = Some n -> existsPath m p = true.
Proof. intros H. apply existsPath_spec. exists p, n. split; [exact H|apply under_refl]. Qed.


Lemma removePath_lookup_under (m : gmap string Node) (d k : string) :
  under d k = true -> removePath m d !! k = None.
Proof.
  intros Hu. unfold removePath. apply map_lookup_filter_None. right.
  intros n _. simpl. congruence.
Qed.

Lemma removePath_lookup_other (m : gmap string Node) (d k : string) :
  under d k = false -> removePath m d !! k = m !! k.
Proof.
  intros Hu. unfold removePath.
  destruct (m !! k) as [n|] eqn:E.
  - apply map_lookup_filter_Some. split; [exact E|exact Hu].
  - apply map_lookup_filter_None. now left.
Qed.

(** After [remove d] nothing exists at or beneath [d]. *)
Lemma existsPath_removePath (m : gmap string Node) (d p : string) :
  under d p = true -> existsPath (removePath m d) p = false.
Proof.
  intros Hu. apply not_true_is_false. intros Hex.
  apply existsPath_spec in Hex as (k & n & Hk & Hpk).
  rewrite removePath_lookup_under in Hk by (eapply under_trans; eassumption).
  discriminate.
Qed.

Section StagingFacts.

Context (VU : VersionUtil) (LC : LibRepoConsts) (LY : Layout) (EX : Externals).


Lemma verifyInstallerRan_missing (a : ResolverArgs) (dir : string) (w : World) :
  existsPath (fs w) (getVersionManifestPath LY a dir) = false ->
  verifyInstallerRan LY a dir w =
  (Err (installerNotRunError dir),
   mkWorld (removePath (fs w) dir)
           ((trace w ++ [EvExists (getVersionManifestPath LY a dir)]) ++ [EvRemove dir])).
Proof.
  intros Hmiss. unfold verifyInstallerRan, pathExists, remove. run. now rewrite Hmiss.
Qed.

Lemma verifyInstallerRan_present (a : ResolverArgs) (dir : string) (w : World) :
  existsPath (fs w) (getVersionManifestPath LY a dir) = true ->
  verifyInstallerRan LY a dir w =
  (Ok tt, mkWorld (fs w) (trace w ++ [EvExists (getVersionManifestPath LY a dir)])).
Proof.
  intros Hex. unfold verifyInstallerRan, pathExists. run. now rewrite Hex.
Qed.

(** C5: when, after the cache check and the installer run, the generated
    version manifest is not at its path inside the installer output
    directory, [processWithInstaller] fails with the not-installed error, and
    in the world the error is raised in the output directory has been
    removed: the removal is the last action, and nothing exists at or beneath
    the directory. *)
Theorem processWithInstaller_cleans_output_on_missing_manifest
    (r : Resolver) (installerPath : string) (w w1 : World) :
  let dir := getNeoForgeCacheDirectory LY (artifactVersion LC) in
  let manifestPath := getVersionManifestPath LY (r_args r) dir in
  installPhase LY EX (r_args r) installerPath dir w = (Ok tt, w1) ->
  existsPath (fs w1) manifestPath = false ->
  exists w',
    processWithInstaller LC LY EX r installerPath w = (Err (installerNotRunError dir), w') /\
    fs w' = removePath (fs w1) dir /\
    trace w' = (trace w1 ++ [EvExists manifestPath]) ++ [EvRemove dir] /\
    (forall p, under dir p = true -> existsPath (fs w') p = false).
Proof.
  intros dir manifestPath Hinst Hmiss.
  eexists. split; [|split; [|split]].
  - unfold processWithInstaller. run. fold dir. rewrite Hinst.
    rewrite (verifyInstallerRan_missing _ _ _ Hmiss). reflexivity.
  - reflexivity.
  - reflexivity.
  - intros p Hp. simpl. now apply existsPath_removePath.
Qed.







(** *** Shape of what the expected-file loop returns *)

Lemma classifierLoop_shape (a : ResolverArgs) (libDir : string) (entry : GeneratedFile)
    (cs : list (option string)) :
  forall (tl tl' : list string) (w w' : World) (m : Module),
  classifierLoop LY a libDir entry cs tl w = (Ok (Some m, tl'), w') ->
  exists c buf st, In c cs /\ m = generatedModule LY a entry c buf st.
Proof.
  induction cs as [|c cs IH]; intros tl tl' w w' m.
  - cbn. discriminate.
  - cbn [classifierLoop]. unfold pathExists at 1. run.
    destruct (existsPath (fs w) (targetPath LY libDir entry c)).
    + destruct (readFile _ _) as [[buf|e] w1]; [|discriminate].
      destruct (lstat _ _) as [[st|e] w2]; [|discriminate].
      destruct (copy _ _ _) as [[[]|e] w3]; [|discriminate].
      intros [= <- _ _]. exists c, buf, st. split; [now left|reflexivity].
    + intros H. apply IH in H as (c' & buf & st & Hin & ->).
      exists c', buf, st. split; [now right|reflexivity].
Qed.

Lemma processEntry_shape (a : ResolverArgs) (libDir : string) (entry : GeneratedFile)
    (w w' : World) (found : option Module) :
  processEntry LY a libDir entry w = (Ok found, w') ->
  match found with
  | Some m => exists c buf st, In c (gf_classifiers entry) /\
                               m = generatedModule LY a entry c buf st
  | None => truthy (gf_skipIfNotPresent entry) = true
  end.
Proof.
  unfold processEntry. run.
  destruct (classifierLoop LY a libDir entry (gf_classifiers entry) [] w)
    as [[[fnd tl]|e] w1] eqn:E; [|discriminate].
  destruct fnd as [m|]; cbn.
  - rewrite andb_false_r. intros [= <- _]. eapply classifierLoop_shape; eassumption.
  - rewrite andb_true_r. destruct (truthy (gf_skipIfNotPresent entry)); cbn.
    + now intros [= <- _].
    + discriminate.
Qed.

Lemma generatedFilesLoop_extends (a : ResolverArgs) (libDir : string) :
  forall (entries : list GeneratedFile) (acc mdls : list Module) (w w' : World),
  generatedFilesLoop LY a libDir entries acc w = (Ok mdls, w') ->
  exists more, mdls = acc ++ more.
Proof.
  induction entries as [|entry rest IH]; intros acc mdls w w'.
  - cbn. intros [= <- _]. exists []. now rewrite app_nil_r.
  - cbn [generatedFilesLoop]. run.
    destruct (processEntry LY a libDir entry w) as [[found|e] w1]; [|discriminate].
    intros H. apply IH in H as [more ->].
    destruct found; [|now exists more].
    exists (m :: more). now rewrite <- app_assoc.
Qed.

(** A required entry at the head of the list is the first one resolved. *)
Lemma generatedFilesLoop_head_required (a : ResolverArgs) (libDir : string)
    (entry : GeneratedFile) (rest : list GeneratedFile) (m : Module) (ms : list Module)
    (w w' : World) :
  truthy (gf_skipIfNotPresent entry) = false ->
  generatedFilesLoop LY a libDir (entry :: rest) [] w = (Ok (m :: ms), w') ->
  exists c buf st, In c (gf_classifiers entry) /\ m = generatedModule LY a entry c buf st.
Proof.
  intros Hreq. cbn [generatedFilesLoop]. run.
  destruct (processEntry LY a libDir entry w) as [[found|e] w1] eqn:E; [|discriminate].
  apply processEntry_shape in E. destruct found as [m0|]; [|congruence].
  intros H. apply generatedFilesLoop_extends in H as [more Hm].
  cbn in Hm. injection Hm as -> _. exact E.
Qed.


(** *** The steps of [processWithInstaller] *)

Lemma resolveWildcards_world {R : Resolver} (vm : VersionManifestFG3) (w w' : World)
    (res : Res (list GeneratedFile)) :
  resolveWildcards R vm w = (res, w') -> w' = w.
Proof.
  unfold resolveWildcards, expectedFiles.
  destruct (wildcardsInUse R) as [wild|];
    [destruct (existsb (String.eqb WILDCARD_MCP_VERSION) wild);
     [destruct (getMCPVersion (vm3_game vm))|]|];
    destruct (generatedFiles R); run; now intros [= _ <-].
Qed.

Lemma processWithInstaller_run
    (r : Resolver) (installerPath : string) (w w0 w1 w2 w3 w4 : World)
    (vm : VersionManifestFG3) (vmMod m : Module) (files : list GeneratedFile)
    (rest libs : list Module) :
  let a := r_args r in
  let dir := getNeoForgeCacheDirectory LY (artifactVersion LC) in
  installPhase LY EX a installerPath dir w = (Ok tt, w0) ->
  verifyInstallerRan LY a dir w0 = (Ok tt, w1) ->
  processVersionManifest LC LY EX a dir w1 = (Ok (vm, vmMod), w2) ->
  resolveWildcards r vm w2 = (Ok files, w2) ->
  generatedFilesLoop LY a (join dir "libraries") files [] w2 = (Ok (m :: rest), w3) ->
  processLibraries LY a (join dir "libraries") (vm3_libraries vm) [] w3 = (Ok libs, w4) ->
  processWithInstaller LC LY EX r installerPath w =
  (Ok (mkModule (m_id m) (m_name m) NeoForgeHosted (m_classpath m) (m_artifact m)
                (Some (vmMod :: rest ++ libs))),
   afterDiscard a dir w4).
Proof.
  intros a dir Hinst Hver Hvm Hwild Hloop Hlibs.
  unfold processWithInstaller, processNeoForgeModule. run.
  fold a. fold dir. rewrite Hinst, Hver, Hvm. cbn [fst snd]. rewrite Hwild, Hloop.
  cbn [rootOf]. run. rewrite Hlibs.
  unfold afterDiscard, remove. destruct (discardOutput a); reflexivity.
Qed.

(** A run of [processWithInstaller] that returns went through every step. *)
Lemma processWithInstaller_inv (r : Resolver) (installerPath : string) (w w' : World)
    (root : Module) :
  let a := r_args r in
  let dir := getNeoForgeCacheDirectory LY (artifactVersion LC) in
  processWithInstaller LC LY EX r installerPath w = (Ok root, w') ->
  exists w0 w1 w2 w3 w4 vm vmMod files m rest libs,
    installPhase LY EX a installerPath dir w = (Ok tt, w0) /\
    verifyInstallerRan LY a dir w0 = (Ok tt, w1) /\
    processVersionManifest LC LY EX a dir w1 = (Ok (vm, vmMod), w2) /\
    resolveWildcards r vm w2 = (Ok files, w2) /\
    generatedFilesLoop LY a (join dir "libraries") files [] w2 = (Ok (m :: rest), w3) /\
    processLibraries LY a (join dir "libraries") (vm3_libraries vm) [] w3 = (Ok libs, w4) /\
    root = mkModule (m_id m) (m_name m) NeoForgeHosted (m_classpath m) (m_artifact m)
             (Some (vmMod :: rest ++ libs)).
Proof.
  intros a dir. unfold processWithInstaller, processNeoForgeModule. run. fold a. fold dir.
  destruct (installPhase LY EX a installerPath dir w) as [[[]|e] w0] eqn:E0;
    cbn beta iota; [|discriminate].
  destruct (verifyInstallerRan LY a dir w0) as [[[]|e] w1] eqn:E1;
    cbn beta iota; [|discriminate].
  destruct (processVersionManifest LC LY EX a dir w1) as [[[vm vmMod]|e] w2] eqn:E2;
    cbn beta iota; [|discriminate].
  cbn [fst snd].
  destruct (resolveWildcards r vm w2) as [[files|e] w2'] eqn:E3;
    cbn beta iota; [|discriminate].
  assert (w2' = w2) by (eapply resolveWildcards_world; exact E3). subst w2'.
  destruct (generatedFilesLoop LY a (join dir "libraries") files [] w2)
    as [[mdls|e] w3] eqn:E4; cbn beta iota; [|discriminate].
  destruct mdls as [|m rest]; cbn [rootOf]; run; [discriminate|].
  destruct (processLibraries LY a (join dir "libraries") (vm3_libraries vm) [] w3)
    as [[libs|e] w4] eqn:E5; cbn beta iota; [|discriminate].
  destruct (discardOutput a); unfold remove; intros [= <- _];
    exists w0, w1, w2, w3, w4, vm, vmMod, files, m, rest, libs; repeat split; assumption.
Qed.

Lemma processVersionManifest_module (a : ResolverArgs) (dir : string) (w w' : World)
    (vm : VersionManifestFG3) (vmMod : Module) :
  processVersionManifest LC LY EX a dir w = (Ok (vm, vmMod), w') ->
  m_type vmMod = VersionManifest /\
  m_name vmMod = "Minecraft NeoForge (version.json)"%string /\
  m_id vmMod = artifactVersion LC.
Proof.
  unfold processVersionManifest, parseJson. run.
  destruct (readFile _ w) as [[buf|e] w1]; [|discriminate].
  destruct (parseFG3 EX buf) as [vm0|]; [|discriminate]. run.
  destruct (lstat _ w1) as [[st|e] w2]; [|discriminate].
  destruct (copy _ _ w2) as [[[]|e] w3]; [|discriminate].
  intros [= _ <- _]. repeat split.
Qed.

(** In a list that [configure] builds for a version before 1.20.3 the first
    entry has the version [artifactVersion]; when that is undefined the
    substitution of the wildcard raises on it. *)
Lemma resolveWildcards_undefined_version (a : ResolverArgs) (vm : VersionManifestFG3)
    (w : World) (mcp : string) :
  artifactVersion LC = None ->
  isExecutableJar (minecraftVersion a) = false ->
  isVersionAcceptable VU (minecraftVersion a) [19; 20] = true ->
  getMCPVersion (vm3_game vm) = Some mcp ->
  resolveWildcards (configuredResolver VU LC a) vm w =
  (Err (TypeError "Cannot read properties of undefined (reading 'includes')"), w).
Proof.
  intros Hav Hexe H19 Hmcp.
  unfold resolveWildcards, configuredResolver, expectedFiles, configure.
  cbn [generatedFiles wildcardsInUse]. rewrite Hexe, H19. cbn [fst snd existsb].
  rewrite String.eqb_refl. cbn [orb]. rewrite Hmcp, Hav.
  destruct (isVersionAcceptable VU (minecraftVersion a) [17; 18; 19; 20]),
           (isVersionAcceptable VU (minecraftVersion a) [18; 19; 20]); reflexivity.
Qed.

(** A resolver as configured whose [artifactVersion] is undefined gets
    through the wildcard step only for a game version from 1.20.3 on. *)
Lemma resolveWildcards_configured_ok (a : ResolverArgs) (vm : VersionManifestFG3)
    (w w' : World) (files : list GeneratedFile) :
  artifactVersion LC = None ->
  resolveWildcards (configuredResolver VU LC a) vm w = (Ok files, w') ->
  isExecutableJar (minecraftVersion a) = true.
Proof.
  intros Hav Hres.
  destruct (isExecutableJar (minecraftVersion a)) eqn:Hexe; [reflexivity|].
  destruct (isVersionAcceptable VU (minecraftVersion a) [19; 20]) eqn:H19.
  - destruct (getMCPVersion (vm3_game vm)) as [mcp|] eqn:Hmcp.
    + rewrite (resolveWildcards_undefined_version a vm w mcp Hav Hexe H19 Hmcp) in Hres.
      discriminate.
    + revert Hres. unfold resolveWildcards, configuredResolver, configure.
      cbn [generatedFiles wildcardsInUse]. rewrite Hexe, H19. cbn [fst snd existsb].
      rewrite String.eqb_refl. cbn [orb]. rewrite Hmcp. discriminate.
  - revert Hres. unfold resolveWildcards, configuredResolver, expectedFiles, configure.
    cbn [generatedFiles wildcardsInUse]. rewrite Hexe, H19. discriminate.
Qed.

(** C4, with the children in the order the code gives them.  When the
    installer output is in place and the manifest, the expected files and the
    libraries are processed without error, the module [processWithInstaller]
    returns is the first module the expected-file loop resolved, re-tagged
    [NeoForgeHosted]; its children are the version-manifest module, then the
    other resolved expected files in order, then the library modules.  For a
    resolver as its constructor configures it, with [artifactVersion]
    undefined as the sources leave it, a run returns a root only for a game
    version from 1.20.3 on, and that root is the module of the loader's
    universal jar, the first and required entry of the list; its first child
    is the version-manifest module. *)
Theorem processWithInstaller_root_and_children (installerPath : string) (w : World) :
  (forall r w0 w1 w2 w3 w4 vm vmMod m files rest libs,
      let a := r_args r in
      let dir := getNeoForgeCacheDirectory LY (artifactVersion LC) in
      installPhase LY EX a installerPath dir w = (Ok tt, w0) ->
      verifyInstallerRan LY a dir w0 = (Ok tt, w1) ->
      processVersionManifest LC LY EX a dir w1 = (Ok (vm, vmMod), w2) ->
      resolveWildcards r vm w2 = (Ok files, w2) ->
      generatedFilesLoop LY a (join dir "libraries") files [] w2 = (Ok (m :: rest), w3) ->
      processLibraries LY a (join dir "libraries") (vm3_libraries vm) [] w3 = (Ok libs, w4) ->
      processWithInstaller LC LY EX r installerPath w =
      (Ok (mkModule (m_id m) (m_name m) NeoForgeHosted (m_classpath m) (m_artifact m)
                    (Some (vmMod :: rest ++ libs))),
       afterDiscard a dir w4)) /\
  (forall a root w',
      artifactVersion LC = None ->
      processWithInstaller LC LY EX (configuredResolver VU LC a) installerPath w =
      (Ok root, w') ->
      isExecutableJar (minecraftVersion a) = true /\
      m_type root = NeoForgeHosted /\
      m_id root = Some (mavenComponentsToIdentifier LY (NEOFORGE_GROUP LC)
                          (NEOFORGE_ARTIFACT LC) None (Some "universal"%string) None) /\
      m_name root = "Minecraft NeoForge (universal jar)"%string /\
      exists vmMod others,
        m_subModules root = Some (vmMod :: others) /\
        m_type vmMod = VersionManifest /\
        m_name vmMod = "Minecraft NeoForge (version.json)"%string).
Proof.
  split.
  - intros r w0 w1 w2 w3 w4 vm vmMod m files rest libs a dir.
    apply processWithInstaller_run.
  - intros a root w' Hav Hrun.
    apply processWithInstaller_inv in Hrun
      as (w0 & w1 & w2 & w3 & w4 & vm & vmMod & files & m & rest & libs
          & _ & _ & Hvm & Hwild & Hloop & _ & ->).
    assert (Hexe := resolveWildcards_configured_ok a vm w2 w2 files Hav Hwild).
    split; [exact Hexe|]. split; [reflexivity|].
    cbn [m_id m_name m_subModules].
    revert Hwild. unfold resolveWildcards, configuredResolver, expectedFiles, configure.
    cbn [generatedFiles wildcardsInUse]. rewrite Hexe. cbn [fst snd]. intros [= <-].
    apply generatedFilesLoop_head_required in Hloop; [|reflexivity].
    destruct Hloop as (c & buf & st & Hin & ->).
    cbn in Hin. destruct Hin as [<-|[]]. cbn [generatedModule m_id m_name gf gf_group
      gf_artifact gf_version gf_name]. rewrite Hav.
    split; [reflexivity|]. split; [reflexivity|].
    apply processVersionManifest_module in Hvm as (Hty & Hname & _).
    exists vmMod, (rest ++ libs). repeat split; assumption.
Qed.

(** *** Steps of the primitives *)

Lemma readFile_file (p b : string) (w : World) :
  fs w !! p = Some (File b) -> readFile p w = (Ok b, w).
Proof. unfold readFile. now intros ->. Qed.

Lemma lstat_file (p b : string) (w : World) :
  fs w !! p = Some (File b) -> lstat p w = (Ok (mkStats (String.length b) false), w).
Proof. unfold lstat. now intros ->. Qed.

Lemma bind_run {A B} (m : M A) (f : A -> M B) (w w' : World) (a : A) :
  m w = (Ok a, w') -> (m ≫= f) w = f a w'.
Proof. unfold mbind, M_bind. now intros ->. Qed.

Lemma determineExtension_total (lib : LibraryFG2) (w : World) :
  exists ext w1, determineExtension LY EX lib w = (Ok ext, w1) /\ fs w1 = fs w.
Proof.
  unfold determineExtension. destruct (lib2_url lib); [|now exists "jar"%string, w].
  unfold possibleExt, checkLocally, checkRemote, artifactExists, pathExists, headArtifactById.
  run.
  repeat match goal with
         | |- context [if ?b then _ else _] => destruct b; cbn [fs trace]
         end;
    eexists; eexists; split; reflexivity.
Qed.

(** *** The library step of the Gradle2 adapter *)

Lemma processLibraryFG2_local (a : ResolverArgs) (lib : LibraryFG2) (w w1 : World)
    (ext b : string) :
  let p := getArtifactById LY (lib2_name lib) ext in
  determineExtension LY EX lib w = (Ok ext, w1) ->
  fs w1 !! p = Some (File b) ->
  hashMismatch EX (String.eqb ext "jar.pack.xz") (lib2_checksums lib) b = false ->
  processLibraryFG2 LY EX a lib w =
  (Ok (libraryModule LY a (lib2_name lib) ext b (mkStats (String.length b) false),
       queueEntryFor LY a lib ext b),
   mkWorld (fs w1) (trace w1 ++ [EvExists p])).
Proof.
  intros p Hext Hfile Hok. unfold processLibraryFG2.
  rewrite (bind_run _ _ _ _ _ Hext). fold p.
  unfold artifactExists, pathExists. run.
  rewrite (existsPath_file _ _ _ Hfile). cbn [negb].
  rewrite (readFile_file p b) by exact Hfile. rewrite Hok. cbn [fst snd].
  rewrite (lstat_file p b) by exact Hfile.
  unfold queueEntryFor. fold p. destruct (String.eqb ext "jar.pack.xz"); reflexivity.
Qed.

Lemma processLibraryFG2_download (a : ResolverArgs) (lib : LibraryFG2) (w w1 : World)
    (ext fresh : string) :
  let p := getArtifactById LY (lib2_name lib) ext in
  determineExtension LY EX lib w = (Ok ext, w1) ->
  (existsPath (fs w1) p = false \/
   exists b, fs w1 !! p = Some (File b) /\
             hashMismatch EX (String.eqb ext "jar.pack.xz") (lib2_checksums lib) b = true) ->
  fetchById EX (libraryRepo lib) (lib2_name lib) ext = Some fresh ->
  processLibraryFG2 LY EX a lib w =
  (Ok (libraryModule LY a (lib2_name lib) ext fresh (mkStats (String.length fresh) false),
       queueEntryFor LY a lib ext fresh),
   mkWorld (<[p := File fresh]> (fs w1)) (trace w1 ++ [EvExists p; EvDownload p])).
Proof.
  intros p Hext Hcase Hfetch. unfold processLibraryFG2.
  rewrite (bind_run _ _ _ _ _ Hext). fold p.
  unfold artifactExists, pathExists, downloadArtifactById, downloadTo.
  rewrite Hfetch. fold p. run.
  assert (Hread : forall t,
             readFile p (mkWorld (<[p := File fresh]> (fs w1)) t) =
             (Ok fresh, mkWorld (<[p := File fresh]> (fs w1)) t)).
  { intros t. apply readFile_file. cbn. apply lookup_insert_eq. }
  assert (Hstat : forall t,
             lstat p (mkWorld (<[p := File fresh]> (fs w1)) t) =
             (Ok (mkStats (String.length fresh) false),
              mkWorld (<[p := File fresh]> (fs w1)) t)).
  { intros t. apply lstat_file. cbn. apply lookup_insert_eq. }
  destruct Hcase as [Habs|(b & Hfile & Hbad)].
  - rewrite Habs. cbn [negb fst snd]. rewrite Hread, Hstat.
    cbn [fs trace]. rewrite <- app_assoc.
    unfold queueEntryFor. fold p. destruct (String.eqb ext "jar.pack.xz"); reflexivity.
  - rewrite (existsPath_file _ _ _ Hfile). cbn [negb].
    rewrite (readFile_file p b) by exact Hfile. rewrite Hbad. cbn [fst snd fs trace].
    rewrite Hread, Hstat. cbn [fs trace]. rewrite <- app_assoc.
    unfold queueEntryFor. fold p. destruct (String.eqb ext "jar.pack.xz"); reflexivity.
Qed.

Lemma hashMismatch_spec (postProcess : bool) (checksums : option (list string)) (b : string) :
  hashMismatch EX postProcess checksums b = true <->
  postProcess = false /\ exists c, checksums = Some [c] /\ sha1 EX b <> c.
Proof.
  unfold hashMismatch. destruct postProcess; cbn.
  - split; [discriminate|]. now intros [? _].
  - destruct checksums as [[|c [|c' cs]]|]; cbn.
    + split; [discriminate|]. intros [_ (c & [=] & _)].
    + rewrite negb_true_iff, String.eqb_neq. split.
      * intros H. split; [reflexivity|]. now exists c.
      * now intros [_ (c0 & [= <-] & H)].
    + split; [discriminate|]. intros [_ (c0 & [=] & _)].
    + split; [discriminate|]. intros [_ (c0 & [=] & _)].
Qed.

(** C6: in the library step of [getNeoForgeByVersion] the local copy is
    judged stale exactly when the library is not a compressed one, its record
    declares exactly one checksum and the SHA-1 of the local bytes differs
    from it.  For a library resolved with the extension jar.pack.xz the
    declared checksums play no part: a local copy, whatever its content and
    whatever the checksums, is used as it is and queued for unpacking, and
    only a missing copy is downloaded. *)
Theorem processLibraryFG2_verifies_only_plain_single_checksum
    (a : ResolverArgs) (lib : LibraryFG2) (w w1 : World) (ext : string) :
  let p := getArtifactById LY (lib2_name lib) ext in
  determineExtension LY EX lib w = (Ok ext, w1) ->
  (forall b,
      hashMismatch EX (String.eqb ext "jar.pack.xz") (lib2_checksums lib) b = true <->
      ext <> "jar.pack.xz"%string /\
      exists c, lib2_checksums lib = Some [c] /\ sha1 EX b <> c) /\
  (forall b,
      ext = "jar.pack.xz"%string ->
      fs w1 !! p = Some (File b) ->
      processLibraryFG2 LY EX a lib w =
      (Ok (libraryModule LY a (lib2_name lib) ext b (mkStats (String.length b) false),
           Some (mkQueueEntry (properId LY (lib2_name lib) ext) p)),
       mkWorld (fs w1) (trace w1 ++ [EvExists p]))) /\
  (forall fresh,
      ext = "jar.pack.xz"%string ->
      existsPath (fs w1) p = false ->
      fetchById EX (libraryRepo lib) (lib2_name lib) ext = Some fresh ->
      processLibraryFG2 LY EX a lib w =
      (Ok (libraryModule LY a (lib2_name lib) ext fresh (mkStats (String.length fresh) false),
           Some (mkQueueEntry (properId LY (lib2_name lib) ext) p)),
       mkWorld (<[p := File fresh]> (fs w1)) (trace w1 ++ [EvExists p; EvDownload p]))) /\
  (forall b,
      ext <> "jar.pack.xz"%string ->
      fs w1 !! p = Some (File b) ->
      (forall c, lib2_checksums lib <> Some [c]) ->
      processLibraryFG2 LY EX a lib w =
      (Ok (libraryModule LY a (lib2_name lib) ext b (mkStats (String.length b) false), None),
       mkWorld (fs w1) (trace w1 ++ [EvExists p]))).
Proof.
  intros p Hext. split; [|split; [|split]].
  - intros b. rewrite hashMismatch_spec, String.eqb_neq. reflexivity.
  - intros b -> Hfile.
    rewrite (processLibraryFG2_local a lib w w1 _ b Hext Hfile) by reflexivity.
    reflexivity.
  - intros fresh -> Habs Hfetch.
    rewrite (processLibraryFG2_download a lib w w1 _ fresh Hext (or_introl Habs) Hfetch).
    reflexivity.
  - intros b Hne Hfile Hnone.
    rewrite (processLibraryFG2_local a lib w w1 ext b Hext Hfile).
    + unfold queueEntryFor. apply String.eqb_neq in Hne. now rewrite Hne.
    + apply not_true_is_false. intros H.
      apply hashMismatch_spec in H as [_ (c & Hc & _)]. now apply (Hnone c).
Qed.

(** *** The universal jar and the library step of the Gradle3 adapter *)







(** [getNeoForgeByVersion] on a universal jar that is on disk. *)
Lemma getNeoForgeByVersion_local (r : Resolver) (w w2 w3 : World) (jar mbuf : string)
    (vm : VersionManifestFG2) (subs : list Module) (queue : list QueueEntry)
    (hashes : list HashEntry) :
  let a := r_args r in
  let universal := getLocalNeoForge LY (artifactVersion LC) "universal" in
  fs w !! universal = Some (File jar) ->
  zipEntry EX jar "version.json" = Some mbuf ->
  parseFG2 EX mbuf = Some vm ->
  librariesLoopFG2 LY EX a (vm2_libraries vm) [] []
    (mkWorld (fs w) (trace w ++ [EvExists universal])) = (Ok (subs, queue), w2) ->
  processPackXZFiles LY EX queue w2 = (Ok hashes, w3) ->
  getNeoForgeByVersion LC LY EX r w =
  (Ok (mkModule
         (Some (mavenComponentsToIdentifier LY (NEOFORGE_GROUP LC) (NEOFORGE_ARTIFACT LC)
                  (artifactVersion LC) (Some "universal"%string) None))
         "Minecraft NeoForge" NeoForgeHosted None
         (generateArtifact LY jar (mkStats (String.length jar) false)
            (getArtifactUrlByComponents LY (baseUrl a) (NEOFORGE_GROUP LC)
               (NEOFORGE_ARTIFACT LC) (artifactVersion LC) (Some "universal"%string) None))
         (Some (applyHashes hashes subs))),
   w3).
Proof.
  intros a universal Hjar Hzip Hparse Hloop Hpack.
  unfold getNeoForgeByVersion, artifactExists, pathExists, downloadArtifactByComponents,
    downloadTo, rethrowAs, getVersionManifestFromJar, parseJson.
  fold a. fold universal.
  run. rewrite (existsPath_file _ _ _ Hjar). cbn [negb fs].
  rewrite Hjar, Hzip, Hparse. cbn.
  rewrite (readFile_file universal jar) by exact Hjar.
  rewrite (lstat_file universal jar) by exact Hjar.
  rewrite Hloop. cbn [fst snd]. rewrite Hpack. reflexivity.
Qed.


(** *** The loader's own record in the library loops *)

Lemma loader_record_not_skipped (name : string) :
  String.prefix "net.neoforge.maven:neoforge:" name = true ->
  String.prefix "net.neoforge.maven:neo:" name = false.
Proof.
  intros H. apply prefix_spec in H as [t ->]. reflexivity.
Qed.

(** C9: in [processWithoutInstaller] the record that [find] selects as the
    loader's own (name starting with net.neoforge.maven:neoforge:) does not
    start with the prefix the library loop skips (net.neoforge.maven:neo:), so
    the loop treats it as any other library: it is verified or downloaded and
    a library module is appended for it. *)
Theorem librariesLoopFG3_processes_loader_record
    (a : ResolverArgs) (lib : LibraryFG3) (rest : list LibraryFG3) (subs : list Module)
    (w : World) :
  String.prefix "net.neoforge.maven:neoforge:" (lib3_name lib) = true ->
  List.find (fun val => String.prefix "net.neoforge.maven:neoforge:" (lib3_name val))
            (lib :: rest) = Some lib /\
  librariesLoopFG3 LY EX a (lib :: rest) subs w =
  (m ← processLibraryFG3 LY EX a lib; librariesLoopFG3 LY EX a rest (subs ++ [m])) w.
Proof.
  intros Hself. split.
  - cbn [List.find]. now rewrite Hself.
  - cbn [librariesLoopFG3]. now rewrite (loader_record_not_skipped _ Hself).
Qed.

(** The Gradle2 loop does leave out the records it takes for the loader's. *)
Lemma librariesLoopFG2_skips_loader_record
    (a : ResolverArgs) (lib : LibraryFG2) (rest : list LibraryFG2) (subs : list Module)
    (queue : list QueueEntry) (w : World) :
  String.prefix "net.neoforge:neoforge:" (lib2_name lib) = true ->
  librariesLoopFG2 LY EX a (lib :: rest) subs queue w =
  librariesLoopFG2 LY EX a rest subs queue w.
Proof. intros Hself. cbn [librariesLoopFG2]. now rewrite Hself. Qed.

(** *** Batch unpacking *)





(** *** Patching the hashes into the modules *)


Lemma hasId_spec (id : string) (el : Module) : hasId id el = true <-> m_id el = Some id.
Proof.
  unfold hasId. destruct (m_id el) as [i|].
  - rewrite String.eqb_eq. split; [now intros ->|now intros [= ->]].
  - split; discriminate.
Qed.



Lemma findById_id (id : string) (subs : list Module) (el : Module) :
  findById id subs = Some el -> m_id el = Some id.
Proof.
  induction subs as [|x rest IH]; [discriminate|]. cbn [findById].
  destruct (hasId id x) eqn:E; [|exact IH].
  intros [= <-]. now apply hasId_spec.
Qed.




Lemma patchFirst_withoutMD5 (id h : string) (subs : list Module) :
  map withoutMD5 (patchFirst id h subs) = map withoutMD5 subs.
Proof.
  induction subs as [|el subs IH]; [reflexivity|]. cbn [patchFirst].
  destruct (hasId id el); cbn [map].
  - reflexivity.
  - now rewrite IH.
Qed.

Lemma applyHashes_withoutMD5 (hashes : list HashEntry) :
  forall subs : list Module,
  map withoutMD5 (applyHashes hashes subs) = map withoutMD5 subs.
Proof.
  induction hashes as [|e hashes IH]; intros subs; [reflexivity|].
  unfold applyHashes. cbn [fold_left]. fold (applyHashes hashes).
  now rewrite IH, patchFirst_withoutMD5.
Qed.


End StagingFacts.

(** ** Runs on concrete inputs: the installer path *)

Lemma isOk_eq {A} (d : A) (r : Res A) : isOk r = true -> r = Ok (resOr d r).
Proof. destruct r; [reflexivity|discriminate]. Qed.

Lemma processWithInstaller_cleans_output_on_missing_manifest_witness :
  exists w',
    processWithInstaller sampleConsts sampleLayout
      (sampleExternals None None None false idleInstaller idleUnpack)
      resolver1211 installerJar worldWithInstaller
    = (Err (installerNotRunError cacheDir1211), w') /\
    existsPath (fs w') cacheDir1211 = false /\
    existsPath (fs w') (join cacheDir1211 "launcher_profiles.json") = false.
Proof.
  destruct (processWithInstaller_cleans_output_on_missing_manifest
              sampleConsts sampleLayout
              (sampleExternals None None None false idleInstaller idleUnpack)
              resolver1211 installerJar worldWithInstaller afterIdleInstall)
    as (w' & Hrun & _ & _ & Hgone).
  - apply run_eq. vm_compute. reflexivity.
  - vm_compute. reflexivity.
  - exists w'. split; [exact Hrun|]. split; apply Hgone; vm_compute; reflexivity.
Defined.

(** C4, counterexample to the order of the children as the claim words it:
    on a cached installer output for 1.21.1 the version-manifest module is the
    first child of the root; the other resolved expected files come after it,
    not before. *)
Lemma processWithInstaller_children_order_counterexample :
  exists root,
    (processWithInstaller sampleConsts sampleLayout externals1211 resolver1211
       installerJar cachedWorld).1 = Ok root /\
    m_name root = "Minecraft NeoForge (universal jar)"%string /\
    option_map (map m_name) (m_subModules root) =
    Some [ "Minecraft NeoForge (version.json)";
           "Minecraft NeoForge (client jar)";
           "Minecraft NeoForge (client shim)";
           "Minecraft NeoForge (fmlcore)";
           "Minecraft NeoForge (javafmllanguage)";
           "Minecraft NeoForge (mclanguage)";
           "Minecraft NeoForge (lowcodelanguage)";
           "Minecraft NeoForge (lib)" ]%string /\
    option_map (map m_name) (m_subModules root) <>
    Some [ "Minecraft NeoForge (client jar)";
           "Minecraft NeoForge (client shim)";
           "Minecraft NeoForge (fmlcore)";
           "Minecraft NeoForge (javafmllanguage)";
           "Minecraft NeoForge (mclanguage)";
           "Minecraft NeoForge (lowcodelanguage)";
           "Minecraft NeoForge (version.json)";
           "Minecraft NeoForge (lib)" ]%string.
Proof.
  eexists. split; [vm_compute; reflexivity|].
  split; [vm_compute; reflexivity|].
  split; [vm_compute; reflexivity|].
  vm_compute. discriminate.
Qed.

Lemma processWithInstaller_root_and_children_witness :
  (exists root,
      processWithInstaller sampleConsts sampleLayout externals1211 resolver1211
        installerJar cachedWorld = (Ok root, world1211_libraries) /\
      option_map (map m_name) (m_subModules root) =
      Some [ "Minecraft NeoForge (version.json)";
             "Minecraft NeoForge (client jar)";
             "Minecraft NeoForge (client shim)";
             "Minecraft NeoForge (fmlcore)";
             "Minecraft NeoForge (javafmllanguage)";
             "Minecraft NeoForge (mclanguage)";
             "Minecraft NeoForge (lowcodelanguage)";
             "Minecraft NeoForge (lib)" ]%string) /\
  (forall root w',
      processWithInstaller sampleConsts sampleLayout externals1211
        (configuredResolver sampleVersionUtil sampleConsts args1211) installerJar cachedWorld =
      (Ok root, w') ->
      m_type root = NeoForgeHosted /\
      m_id root = Some "net.neoforge:neoforge:undefined:universal"%string /\
      m_name root = "Minecraft NeoForge (universal jar)"%string).
Proof.
  split.
  - eexists. split.
    + eapply (proj1 (processWithInstaller_root_and_children sampleVersionUtil sampleConsts
                       sampleLayout externals1211 installerJar cachedWorld)
                resolver1211 world1211_installed world1211_verified world1211_manifest
                world1211_files world1211_libraries sampleManifest3 _ _
                (default [] (generatedFiles resolver1211))).
      * apply run_eq. vm_compute. reflexivity.
      * apply run_eq. vm_compute. reflexivity.
      * apply run_eq. vm_compute. reflexivity.
      * reflexivity.
      * unfold world1211_files. apply run_eq. vm_compute. reflexivity.
      * unfold world1211_libraries. apply run_eq. vm_compute. reflexivity.
    + vm_compute. reflexivity.
  - intros root w' Hrun.
    destruct (proj2 (processWithInstaller_root_and_children sampleVersionUtil sampleConsts
                       sampleLayout externals1211 installerJar cachedWorld)
                args1211 root w' eq_refl Hrun) as (_ & Hty & Hid & Hname & _).
    split; [exact Hty|]. split; [exact Hid|exact Hname].
Defined.

(** ** Runs on concrete inputs: an expected file with two classifiers *)



(** ** Runs on concrete inputs: integrity, compressed libraries, unpacking *)



Lemma processLibraryFG2_verifies_only_plain_single_checksum_witness :
  (processLibraryFG2 sampleLayout externalsFresh args1211
     (exampleLib2 (Some "https://host/"%string) (Some ["sha1:other"%string]))
     (worldWith packedPath "packed-bytes")).1 =
  Ok (libraryModule sampleLayout args1211 "org.example:lib:1.0" "jar.pack.xz" "packed-bytes"
        (mkStats 12 false),
      Some (mkQueueEntry "org.example:lib:1.0@jar.pack.xz" packedPath)) /\
  (processLibraryFG2 sampleLayout externalsFresh args1211
     (exampleLib2 (Some "https://host/"%string) (Some ["sha1:other"%string]))
     emptyWorld).1 =
  Ok (libraryModule sampleLayout args1211 "org.example:lib:1.0" "jar.pack.xz" "fresh"
        (mkStats 5 false),
      Some (mkQueueEntry "org.example:lib:1.0@jar.pack.xz" packedPath)) /\
  (processLibraryFG2 sampleLayout externalsFresh args1211 (exampleLib2 None None)
     (worldWith (exampleLibPath "jar") "stale")).1 =
  Ok (libraryModule sampleLayout args1211 "org.example:lib:1.0" "jar" "stale"
        (mkStats 5 false), None).
Proof.
  split; [|split].
  - eapply run_fst.
    apply (proj1 (proj2
             (processLibraryFG2_verifies_only_plain_single_checksum sampleLayout externalsFresh
                args1211
                (exampleLib2 (Some "https://host/"%string) (Some ["sha1:other"%string]))
                (worldWith packedPath "packed-bytes")
                (determineExtension sampleLayout externalsFresh
                   (exampleLib2 (Some "https://host/"%string) (Some ["sha1:other"%string]))
                   (worldWith packedPath "packed-bytes")).2
                "jar.pack.xz"%string
                ltac:(apply run_eq; vm_compute; reflexivity)))
             "packed-bytes"%string).
    + reflexivity.
    + vm_compute. reflexivity.
  - eapply run_fst.
    apply (proj1 (proj2 (proj2
             (processLibraryFG2_verifies_only_plain_single_checksum sampleLayout externalsFresh
                args1211
                (exampleLib2 (Some "https://host/"%string) (Some ["sha1:other"%string]))
                emptyWorld
                (determineExtension sampleLayout externalsFresh
                   (exampleLib2 (Some "https://host/"%string) (Some ["sha1:other"%string]))
                   emptyWorld).2
                "jar.pack.xz"%string
                ltac:(apply run_eq; vm_compute; reflexivity))))
             "fresh"%string).
    + reflexivity.
    + vm_compute. reflexivity.
    + reflexivity.
  - eapply run_fst.
    apply (proj2 (proj2 (proj2
             (processLibraryFG2_verifies_only_plain_single_checksum sampleLayout externalsFresh
                args1211 (exampleLib2 None None)
                (worldWith (exampleLibPath "jar") "stale")
                (worldWith (exampleLibPath "jar") "stale")
                "jar"%string eq_refl)))
             "stale"%string).
    + discriminate.
    + vm_compute. reflexivity.
    + discriminate.
Defined.



Lemma librariesLoopFG3_processes_loader_record_witness :
  List.find (fun val => String.prefix "net.neoforge.maven:neoforge:" (lib3_name val))
            [loaderRecord] = Some loaderRecord /\
  librariesLoopFG3 sampleLayout externals1165 args1165 [loaderRecord] [] emptyWorld =
  (m ← processLibraryFG3 sampleLayout externals1165 args1165 loaderRecord;
   librariesLoopFG3 sampleLayout externals1165 args1165 [] ([] ++ [m])) emptyWorld.
Proof.
  apply (librariesLoopFG3_processes_loader_record sampleLayout externals1165 args1165
           loaderRecord [] [] emptyWorld).
  reflexivity.
Defined.

(** The run of [processWithoutInstaller] on a manifest whose only library is
    the loader's own record: the root has two children, the version manifest
    and a library module for the loader's record, which was downloaded. *)
Example processWithoutInstaller_emits_loader_library :
  exists root,
    (processWithoutInstaller sampleConsts sampleLayout externals1165 resolver1165
       installerJar world1165).1 = Ok root /\
    m_type root = NeoForgeHosted /\
    option_map (map (fun m => (m_type m, m_id m))) (m_subModules root) =
    Some [ (VersionManifest, None);
           (Library, Some "net.neoforge.maven:neoforge:1.16.5-36.2.20@jar"%string) ] /\
  In (EvDownload
        "/root/repo/lib/net.neoforge.maven/neoforge/1.16.5-36.2.20/neoforge-1.16.5-36.2.20.jar")
     (trace (processWithoutInstaller sampleConsts sampleLayout externals1165 resolver1165
               installerJar world1165).2).
Proof.
  eexists. split; [vm_compute; reflexivity|].
  split; [vm_compute; reflexivity|].
  split; [vm_compute; reflexivity|].
  vm_compute. auto 10.
Qed.

(** * Further properties of the resolvers *)

Section VersionFacts.

Context (VU : VersionUtil) (LC : LibRepoConsts) (LY : Layout) (EX : Externals).

(** X1: [getMCPVersion] returns the argument that follows the first
    '--fml.mcpVersion' of the list, and nothing when that flag is the last
    argument or does not occur. *)
Theorem getMCPVersion_first_flag :
  (forall pre rest : list string,
      (forall x, In x pre -> x <> "--fml.mcpVersion"%string) ->
      getMCPVersion (pre ++ "--fml.mcpVersion"%string :: rest) = head rest) /\
  (forall args : list string,
      (forall x, In x args -> x <> "--fml.mcpVersion"%string) ->
      getMCPVersion args = None).
Proof.
  split.
  - induction pre as [|x pre IH]; intros rest Hpre; cbn [app getMCPVersion].
    + now rewrite String.eqb_refl.
    + assert (Hx : x <> "--fml.mcpVersion"%string) by (apply Hpre; now left).
      apply String.eqb_neq in Hx. rewrite Hx.
      apply IH. intros y Hy. apply Hpre. now right.
  - induction args as [|x args IH]; intros Hall; cbn [getMCPVersion]; [reflexivity|].
    assert (Hx : x <> "--fml.mcpVersion"%string) by (apply Hall; now left).
    apply String.eqb_neq in Hx. rewrite Hx.
    apply IH. intros y Hy. apply Hall. now right.
Qed.

Lemma expectedFiles_run (r : Resolver) (w : World) (files : list GeneratedFile) :
  generatedFiles r = Some files -> expectedFiles r w = (Ok files, w).
Proof. unfold expectedFiles. now intros ->. Qed.

Lemma mapRes_Forall2 {A B} (f : A -> Res B) (l : list A) :
  forall l' : list B, mapRes f l = Ok l' -> Forall2 (fun x y => f x = Ok y) l l'.
Proof.
  induction l as [|x l IH]; intros l'; cbn [mapRes].
  - intros [= <-]. constructor.
  - destruct (f x) as [y|e] eqn:Ex; [|discriminate].
    destruct (mapRes f l) as [ys|e]; [|discriminate].
    intros [= <-]. constructor; [exact Ex|now apply IH].
Qed.

Lemma substituteMcpVersion_entry (mcp : string) (o f : GeneratedFile) :
  substituteMcpVersion mcp o = Ok f ->
  entryShape f = entryShape o /\ (carriesWildcard o = false -> f = o).
Proof.
  unfold substituteMcpVersion, carriesWildcard.
  destruct (gf_version o) as [v|]; [|discriminate].
  destruct (includes WILDCARD_MCP_VERSION v); intros [= <-].
  - split; [reflexivity|discriminate].
  - split; reflexivity.
Qed.

Lemma resolveWildcards_entries
    (r : Resolver) (vm : VersionManifestFG3) (w w' : World)
    (orig files : list GeneratedFile) :
  generatedFiles r = Some orig ->
  resolveWildcards r vm w = (Ok files, w') ->
  w' = w /\
  map entryShape files = map entryShape orig /\
  Forall2 (fun o f => carriesWildcard o = false -> f = o) orig files.
Proof.
  intros Horig. unfold resolveWildcards.
  assert (Hid : expectedFiles r w = (Ok files, w') ->
                w' = w /\ map entryShape files = map entryShape orig /\
                Forall2 (fun o f => carriesWildcard o = false -> f = o) orig files).
  { rewrite (expectedFiles_run r w orig Horig). intros [= <- <-].
    repeat split. clear. induction orig; constructor; auto. }
  destruct (wildcardsInUse r) as [wild|]; [|exact Hid].
  destruct (existsb (String.eqb WILDCARD_MCP_VERSION) wild); [|exact Hid].
  destruct (getMCPVersion (vm3_game vm)) as [mcp|]; [|discriminate].
  run. rewrite (expectedFiles_run r w orig Horig).
  destruct (mapRes (substituteMcpVersion mcp) orig) as [fs'|e] eqn:Emap; [|discriminate].
  intros [= <- <-]. split; [reflexivity|].
  apply mapRes_Forall2 in Emap. clear Horig Hid.
  induction Emap as [|o f os fs0 Hof _ [IH1 IH2]]; [split; [reflexivity|constructor]|].
  apply substituteMcpVersion_entry in Hof as [Hshape Hsame].
  split; [cbn [map]; now rewrite Hshape, IH1|constructor; assumption].
Qed.

(** X2: what [resolveWildcards] returns has the entries of [generatedFiles]
    in the same order and number, each with its name, coordinates,
    classifiers and flags; only a version that contains the wildcard is
    rewritten, and the files are not touched. *)
Theorem resolveWildcards_keeps_entries
    (r : Resolver) (vm : VersionManifestFG3) (w w' : World)
    (orig files : list GeneratedFile) :
  generatedFiles r = Some orig ->
  resolveWildcards r vm w = (Ok files, w') ->
  w' = w /\
  map entryShape files = map entryShape orig /\
  Forall2 (fun o f => carriesWildcard o = false -> f = o) orig files.
Proof. apply resolveWildcards_entries. Qed.

(** X3: for a game version from 1.20.3 on no expected file carries the
    wildcard, so the manifest's arguments are not consulted and the list is
    used as configured; for an installer version before 1.20.3 the wildcard is
    in use, and a manifest without an MCP version makes
    [processNeoForgeModule] fail before any file is looked for. *)
Theorem processNeoForgeModule_needs_mcp_version_before_1_20_3
    (a : ResolverArgs) (vm : VersionManifestFG3) (dir : string) (w : World) :
  (isExecutableJar (minecraftVersion a) = true ->
   exists files,
     generatedFiles (configuredResolver VU LC a) = Some files /\
     resolveWildcards (configuredResolver VU LC a) vm w = (Ok files, w)) /\
  (isExecutableJar (minecraftVersion a) = false ->
   isVersionAcceptable VU (minecraftVersion a) [19; 20] = true ->
   getMCPVersion (vm3_game vm) = None ->
   processNeoForgeModule LY (configuredResolver VU LC a) vm dir w =
   (Err (JsError "MCP Version not found.. did neoforge change their format?"), w)).
Proof.
  split.
  - intros Hexe. unfold configuredResolver, resolveWildcards, expectedFiles, configure.
    cbn [generatedFiles wildcardsInUse]. rewrite Hexe. cbn [fst snd].
    eexists. split; reflexivity.
  - intros Hexe H19 Hmcp.
    unfold processNeoForgeModule, configuredResolver, resolveWildcards, configure.
    cbn [generatedFiles wildcardsInUse]. rewrite Hexe, H19. cbn [fst snd existsb].
    rewrite String.eqb_refl. cbn [orb]. rewrite Hmcp. reflexivity.
Qed.

(** X4: when the cache directory of an earlier run exists, the cache is not
    invalidated and the generated manifest is in it, the install phase and
    the verification change no file and spawn no installer: they only probe
    the directory and the manifest. *)
Theorem installPhase_reuses_cache
    (a : ResolverArgs) (installerPath cacheDir : string) (w : World) :
  existsPath (fs w) cacheDir = true ->
  invalidateCache a = false ->
  existsPath (fs w) (getVersionManifestPath LY a cacheDir) = true ->
  (installPhase LY EX a installerPath cacheDir;; verifyInstallerRan LY a cacheDir) w =
  (Ok tt,
   mkWorld (fs w)
           (trace w ++ [EvExists cacheDir; EvExists (getVersionManifestPath LY a cacheDir)])).
Proof.
  intros Hdir Hinv Hman.
  unfold installPhase, verifyInstallerRan, pathExists. run.
  rewrite Hdir, Hinv. cbn [fs trace]. rewrite Hman. cbn [negb].
  rewrite <- app_assoc. reflexivity.
Qed.

(** X5: [process] first secures the installer jar.  When the jar is on disk
    nothing is downloaded; when it is not and the remote fetch fails, the run
    fails with the download error before either strategy starts; when the
    fetch succeeds the jar is written at its local path, once.  The strategy
    that follows is the installer one exactly when the list of expected files
    is non-empty, which for a resolver as configured means a game version
    from 1.20.3 on or one that [isVersionAcceptable] places in 1.19-1.20. *)
Theorem process_secures_installer (r : Resolver) (w : World) :
  let installerPath := getLocalNeoForge LY (artifactVersion LC) "installer" in
  let dest := getArtifactByComponents LY (NEOFORGE_GROUP LC) (NEOFORGE_ARTIFACT LC)
                (artifactVersion LC) (Some "installer"%string) (Some "jar"%string) in
  let strategy := if usesInstaller r then processWithInstaller LC LY EX r installerPath
                  else processWithoutInstaller LC LY EX r installerPath in
  (existsPath (fs w) installerPath = true ->
   process LC LY EX r w = strategy (mkWorld (fs w) (trace w ++ [EvExists installerPath]))) /\
  (existsPath (fs w) installerPath = false ->
   fetchByComponents EX REMOTE_REPOSITORY (NEOFORGE_GROUP LC) (NEOFORGE_ARTIFACT LC)
     (artifactVersion LC) "installer" "jar" = None ->
   process LC LY EX r w =
   (Err (DownloadError dest), mkWorld (fs w) (trace w ++ [EvExists installerPath]))) /\
  (forall bytes,
      existsPath (fs w) installerPath = false ->
      fetchByComponents EX REMOTE_REPOSITORY (NEOFORGE_GROUP LC) (NEOFORGE_ARTIFACT LC)
        (artifactVersion LC) "installer" "jar" = Some bytes ->
      process LC LY EX r w =
      strategy (mkWorld (<[dest := File bytes]> (fs w))
                        (trace w ++ [EvExists installerPath; EvDownload dest]))) /\
  (forall a,
      usesInstaller (configuredResolver VU LC a) =
      isExecutableJar (minecraftVersion a) || isVersionAcceptable VU (minecraftVersion a) [19; 20]).
Proof.
  intros installerPath dest strategy.
  assert (Hstrat : forall w0,
             match generatedFiles r with
             | Some (_ :: _) => processWithInstaller LC LY EX r installerPath
             | _ => processWithoutInstaller LC LY EX r installerPath
             end w0 = strategy w0).
  { intros w0. unfold strategy, usesInstaller.
    destruct (generatedFiles r) as [[|f fs0]|]; reflexivity. }
  unfold process, artifactExists, pathExists, downloadArtifactByComponents, downloadTo.
  fold installerPath. fold dest.
  split; [|split; [|split]].
  - intros Hex. run. rewrite Hex. cbn [negb]. apply Hstrat.
  - intros Hex Hfetch. rewrite Hfetch. run. rewrite Hex. reflexivity.
  - intros bytes Hex Hfetch. rewrite Hfetch. run. rewrite Hex. cbn [negb fs trace].
    rewrite <- app_assoc. apply Hstrat.
  - intros a. unfold usesInstaller, configuredResolver, configure. cbn [generatedFiles].
    destruct (isExecutableJar (minecraftVersion a)); [reflexivity|].
    destruct (isVersionAcceptable VU (minecraftVersion a) [19; 20]); [|reflexivity].
    destruct (isVersionAcceptable VU (minecraftVersion a) [17; 18; 19; 20]),
             (isVersionAcceptable VU (minecraftVersion a) [18; 19; 20]); reflexivity.
Qed.

End VersionFacts.

Section LibraryFacts.

Context (VU : VersionUtil) (LC : LibRepoConsts) (LY : Layout) (EX : Externals).

(** X6: [determineExtension] never fails and never changes a file, and it
    answers jar.pack.xz or jar and nothing else; for a library without a url
    it answers jar without any probe. *)
Theorem determineExtension_range (lib : LibraryFG2) (w : World) :
  exists ext w',
    determineExtension LY EX lib w = (Ok ext, w') /\
    (ext = "jar.pack.xz"%string \/ ext = "jar"%string) /\
    fs w' = fs w /\
    (lib2_url lib = None -> ext = "jar"%string /\ w' = w).
Proof.
  unfold determineExtension. destruct (lib2_url lib) as [u|].
  - unfold possibleExt, checkLocally, checkRemote, artifactExists, pathExists, headArtifactById.
    run.
    repeat match goal with
           | |- context [if ?b then _ else _] => destruct b; cbn [fs trace]
           end;
      (eexists; eexists; split; [reflexivity|]; split; [auto|]; split; [reflexivity|];
       discriminate).
  - exists "jar"%string, w. repeat split; auto.
Qed.

(** X7: for a library with a url the extension is looked for on disk first,
    compressed before plain, and the remote repository is asked only when
    neither is on disk, again compressed first; when the remote has no
    compressed file the answer is jar whatever it says about the plain one. *)
Theorem determineExtension_priority (lib : LibraryFG2) (url : string) (w : World) :
  let packed := getArtifactById LY (lib2_name lib) "jar.pack.xz" in
  let plain := getArtifactById LY (lib2_name lib) "jar" in
  lib2_url lib = Some url ->
  (existsPath (fs w) packed = true ->
   determineExtension LY EX lib w =
   (Ok "jar.pack.xz"%string, mkWorld (fs w) (trace w ++ [EvExists packed]))) /\
  (existsPath (fs w) packed = false -> existsPath (fs w) plain = true ->
   determineExtension LY EX lib w =
   (Ok "jar"%string, mkWorld (fs w) (trace w ++ [EvExists packed; EvExists plain]))) /\
  (existsPath (fs w) packed = false -> existsPath (fs w) plain = false ->
   headById EX REMOTE_REPOSITORY (lib2_name lib) "jar.pack.xz" = true ->
   determineExtension LY EX lib w =
   (Ok "jar.pack.xz"%string,
    mkWorld (fs w)
            (trace w ++ [EvExists packed; EvExists plain;
                         EvHead REMOTE_REPOSITORY (lib2_name lib) "jar.pack.xz"]))) /\
  (existsPath (fs w) packed = false -> existsPath (fs w) plain = false ->
   headById EX REMOTE_REPOSITORY (lib2_name lib) "jar.pack.xz" = false ->
   determineExtension LY EX lib w =
   (Ok "jar"%string,
    mkWorld (fs w)
            (trace w ++ [EvExists packed; EvExists plain;
                         EvHead REMOTE_REPOSITORY (lib2_name lib) "jar.pack.xz";
                         EvHead REMOTE_REPOSITORY (lib2_name lib) "jar"]))).
Proof.
  intros packed plain Hurl.
  unfold determineExtension, possibleExt, checkLocally, checkRemote, artifactExists,
    pathExists, headArtifactById.
  rewrite Hurl. fold packed. fold plain. run.
  split; [|split; [|split]].
  - intros Hp. rewrite Hp. reflexivity.
  - intros Hp Hj. rewrite Hp. cbn [fs trace]. rewrite Hj.
    rewrite <- app_assoc. reflexivity.
  - intros Hp Hj Hh. rewrite Hp. cbn [fs trace]. rewrite Hj. cbn [fs trace]. rewrite Hh.
    rewrite <- !app_assoc. reflexivity.
  - intros Hp Hj Hh. rewrite Hp. cbn [fs trace]. rewrite Hj. cbn [fs trace]. rewrite Hh.
    destruct (headById EX REMOTE_REPOSITORY (lib2_name lib) "jar");
      cbn [fs trace]; rewrite <- !app_assoc; reflexivity.
Qed.

(** *** What the library step of the Gradle2 adapter returns *)

Lemma processLibraryFG2_shape (a : ResolverArgs) (lib : LibraryFG2) (w w' : World)
    (mdl : Module) (oq : option QueueEntry) :
  processLibraryFG2 LY EX a lib w = (Ok (mdl, oq), w') ->
  exists ext buf st,
    mdl = libraryModule LY a (lib2_name lib) ext buf st /\
    oq = if String.eqb ext "jar.pack.xz"
         then Some (mkQueueEntry (properId LY (lib2_name lib) ext)
                      (getArtifactById LY (lib2_name lib) ext))
         else None.
Proof.
  unfold processLibraryFG2, downloadArtifactById. run.
  destruct (determineExtension LY EX lib w) as [[ext|e] w1]; [|discriminate].
  destruct (String.eqb ext "jar.pack.xz") eqn:Eext;
    crack; intros [= <- <- _]; exists ext; eexists; eexists; rewrite Eext;
    split; reflexivity.
Qed.

Lemma findById_app_l (id : string) (subs more : list Module) :
  is_Some (findById id subs) -> is_Some (findById id (subs ++ more)).
Proof.
  induction subs as [|el subs IH]; cbn [findById app].
  - intros [x Hx]. discriminate.
  - destruct (hasId id el); [eauto|exact IH].
Qed.

Lemma findById_app_last (id : string) (subs : list Module) (m : Module) :
  m_id m = Some id -> is_Some (findById id (subs ++ [m])).
Proof.
  intros Hid. apply hasId_spec in Hid.
  induction subs as [|el subs IH]; cbn [findById app].
  - rewrite Hid. eauto.
  - destruct (hasId id el); [eauto|exact IH].
Qed.

(** X8: every entry that the Gradle2 library loop puts in the post-process
    queue carries the id of a module that the loop has appended, so the
    search for the module to patch always succeeds; and the loop appends one
    module for each library record that is not the loader's. *)
Theorem librariesLoopFG2_queue_has_modules (a : ResolverArgs) (libs : list LibraryFG2) :
  forall (subs : list Module) (queue : list QueueEntry) (w : World)
         (subs' : list Module) (queue' : list QueueEntry) (w' : World),
  (forall q, In q queue -> is_Some (findById (q_id q) subs)) ->
  librariesLoopFG2 LY EX a libs subs queue w = (Ok (subs', queue'), w') ->
  (forall q, In q queue' -> is_Some (findById (q_id q) subs')) /\
  length subs' =
  (length subs +
   length (List.filter (fun lib => negb (String.prefix "net.neoforge:neoforge:" (lib2_name lib)))
                  libs))%nat.
Proof.
  induction libs as [|lib libs IH]; intros subs queue w subs' queue' w' Hinv.
  - cbn. intros [= <- <- _]. split; [exact Hinv|]. cbn. lia.
  - cbn [librariesLoopFG2 List.filter].
    destruct (String.prefix "net.neoforge:neoforge:" (lib2_name lib)); cbn [negb].
    + intros H. exact (IH _ _ _ _ _ _ Hinv H).
    + run.
      destruct (processLibraryFG2 LY EX a lib w) as [[[mdl oq]|e] w1] eqn:E; [|discriminate].
      apply processLibraryFG2_shape in E as (ext & buf & st & Hm & Hq).
      cbn [fst snd]. intros Hloop. apply IH in Hloop.
      * destruct Hloop as [Hq' Hlen]. split; [exact Hq'|].
        rewrite Hlen, length_app. cbn [length]. lia.
      * intros q Hin. destruct oq as [q0|].
        -- apply in_app_iff in Hin as [Hin|[<-|[]]].
           ++ apply findById_app_l, Hinv, Hin.
           ++ destruct (String.eqb ext "jar.pack.xz"); [|discriminate].
              injection Hq as ->. cbn [q_id]. apply findById_app_last. now rewrite Hm.
        -- apply findById_app_l, Hinv, Hin.
Qed.

(** *** Patching keeps everything but the MD5 *)

Lemma patchFirst_absent (id h : string) (subs : list Module) :
  findById id subs = None -> patchFirst id h subs = subs.
Proof.
  induction subs as [|el subs IH]; [reflexivity|]. cbn [patchFirst findById].
  destruct (hasId id el); [discriminate|].
  intros H. now rewrite IH.
Qed.

(** X9: applying the hashes changes nothing of the modules but the MD5 of
    their artifacts: their number, order, ids, names, types, sizes, urls
    and children stay; and a hash whose id is on no module changes nothing
    at all. *)
Theorem applyHashes_changes_only_MD5 (hashes : list HashEntry) (subs : list Module) :
  map withoutMD5 (applyHashes hashes subs) = map withoutMD5 subs /\
  ((forall e, In e hashes -> findById (h_id e) subs = None) ->
   applyHashes hashes subs = subs).
Proof.
  split.
  - apply applyHashes_withoutMD5.
  - revert subs. induction hashes as [|e hashes IH]; intros subs Hall; [reflexivity|].
    unfold applyHashes. cbn [fold_left]. fold (applyHashes hashes).
    rewrite patchFirst_absent by (apply Hall; now left).
    apply IH. intros e' He'. apply Hall. now right.
Qed.



(** X11: the modules the expected-file loop returns follow the entries in
    order: every entry contributes the module of one of its classifiers, or
    nothing, and it may contribute nothing only if it is marked
    [skipIfNotPresent]. *)
Theorem generatedFilesLoop_resolves_in_order (a : ResolverArgs) (libDir : string) :
  forall (entries : list GeneratedFile) (acc mdls : list Module) (w w' : World),
  generatedFilesLoop LY a libDir entries acc w = (Ok mdls, w') ->
  exists founds : list (option Module),
    mdls = acc ++ omap id founds /\
    Forall2 (fun e f =>
               match f with
               | Some m => exists c buf st, In c (gf_classifiers e) /\
                                            m = generatedModule LY a e c buf st
               | None => truthy (gf_skipIfNotPresent e) = true
               end)
            entries founds.
Proof.
  induction entries as [|e entries IH]; intros acc mdls w w'.
  - cbn. intros [= <- _]. exists []. rewrite app_nil_r. split; [reflexivity|constructor].
  - cbn [generatedFilesLoop]. run.
    destruct (processEntry LY a libDir e w) as [[found|err] w1] eqn:E; [|discriminate].
    apply processEntry_shape in E. intros H.
    apply IH in H as (founds & -> & Hall).
    exists (found :: founds). split.
    + destruct found; cbn [omap id]; [now rewrite <- app_assoc|reflexivity].
    + constructor; assumption.
Qed.

(** X12: the library loop of [processWithoutInstaller] appends to the
    children it is given, so the version manifest stays the first child, one
    Library module for every record whose name does not start with
    net.neoforge.maven:neo:, in the order of the manifest, each with the
    extension jar. *)
Theorem librariesLoopFG3_appends_in_order (a : ResolverArgs) :
  forall (libs : list LibraryFG3) (subs subs' : list Module) (w w' : World),
  librariesLoopFG3 LY EX a libs subs w = (Ok subs', w') ->
  exists more,
    subs' = subs ++ more /\
    Forall2 (fun lib m => exists buf st,
                 m = libraryModule LY a (lib3_name lib) "jar" buf st)
            (List.filter (fun lib => negb (String.prefix "net.neoforge.maven:neo:" (lib3_name lib)))
                    libs)
            more.
Proof.
  induction libs as [|lib libs IH]; intros subs subs' w w'.
  - cbn. intros [= <- _]. exists []. rewrite app_nil_r. split; [reflexivity|constructor].
  - cbn [librariesLoopFG3 List.filter].
    destruct (String.prefix "net.neoforge.maven:neo:" (lib3_name lib)); cbn [negb];
      [apply IH|].
    run. destruct (processLibraryFG3 LY EX a lib w) as [[m|e] w1] eqn:E; [|discriminate].
    intros H. apply IH in H as (more & -> & Hall).
    exists (m :: more). split; [now rewrite <- app_assoc|].
    constructor; [|exact Hall].
    revert E. unfold processLibraryFG3, downloadArtifactDirect. run.
    crack; intros [= <- _]; eauto.
Qed.

End LibraryFacts.

Section StagingMoreFacts.

Context (VU : VersionUtil) (LC : LibRepoConsts) (LY : Layout) (EX : Externals).

(** *** A copied file is at its destination *)













(** X16: [getNeoForgeByVersion] takes a universal jar that is on disk as it
    is: nothing is downloaded and no hash is compared, the root module is
    generated from the bytes on disk, and its children are the modules of the
    library loop with the unpacked hashes applied.  A jar that is absent and
    cannot be fetched gives the download error; a jar without version.json
    gives the version.json error. *)
Theorem getNeoForgeByVersion_takes_local_universal (r : Resolver) (w : World) :
  let a := r_args r in
  let universal := getLocalNeoForge LY (artifactVersion LC) "universal" in
  let probed := mkWorld (fs w) (trace w ++ [EvExists universal]) in
  (forall jar mbuf vm subs queue hashes w2 w3,
      fs w !! universal = Some (File jar) ->
      zipEntry EX jar "version.json" = Some mbuf ->
      parseFG2 EX mbuf = Some vm ->
      librariesLoopFG2 LY EX a (vm2_libraries vm) [] [] probed = (Ok (subs, queue), w2) ->
      processPackXZFiles LY EX queue w2 = (Ok hashes, w3) ->
      getNeoForgeByVersion LC LY EX r w =
      (Ok (mkModule
             (Some (mavenComponentsToIdentifier LY (NEOFORGE_GROUP LC) (NEOFORGE_ARTIFACT LC)
                      (artifactVersion LC) (Some "universal"%string) None))
             "Minecraft NeoForge" NeoForgeHosted None
             (generateArtifact LY jar (mkStats (String.length jar) false)
                (getArtifactUrlByComponents LY (baseUrl a) (NEOFORGE_GROUP LC)
                   (NEOFORGE_ARTIFACT LC) (artifactVersion LC) (Some "universal"%string) None))
             (Some (applyHashes hashes subs))),
       w3)) /\
  (existsPath (fs w) universal = false ->
   fetchByComponents EX REMOTE_REPOSITORY (NEOFORGE_GROUP LC) (NEOFORGE_ARTIFACT LC)
     (artifactVersion LC) "universal" "jar" = None ->
   getNeoForgeByVersion LC LY EX r w =
   (Err (DownloadError
           (getArtifactByComponents LY (NEOFORGE_GROUP LC) (NEOFORGE_ARTIFACT LC)
              (artifactVersion LC) (Some "universal"%string) (Some "jar"%string))),
    probed)) /\
  (forall jar,
      fs w !! universal = Some (File jar) ->
      zipEntry EX jar "version.json" = None ->
      getNeoForgeByVersion LC LY EX r w =
      (Err (JsError "Failed to find version.json in neoforge universal jar."), probed)).
Proof.
  intros a universal probed.
  split.
  { intros jar mbuf vm subs queue hashes w2 w3 Hjar Hzip Hparse Hloop Hpack.
    now apply (getNeoForgeByVersion_local LC LY EX r w w2 w3 jar mbuf vm subs queue hashes). }
  unfold getNeoForgeByVersion, artifactExists, pathExists, downloadArtifactByComponents,
    downloadTo, rethrowAs, getVersionManifestFromJar, parseJson.
  fold a. fold universal.
  split.
  - intros Habs Hfetch. rewrite Hfetch. run. rewrite Habs. reflexivity.
  - intros jar Hjar Hzip. run. rewrite (existsPath_file _ _ _ Hjar). cbn [negb fs].
    rewrite Hjar, Hzip. reflexivity.
Qed.

End StagingMoreFacts.

Section RootFacts.

Context (VU : VersionUtil) (LC : LibRepoConsts) (LY : Layout) (EX : Externals).

(** *** The errors of the expected-file loop *)

Lemma readFile_error (p : string) (w w' : World) (e : Error) :
  readFile p w = (Err e, w') -> isTypeError e = false.
Proof.
  unfold readFile. destruct (fs w !! p) as [[c|]|]; intros [= <- _]; reflexivity.
Qed.

Lemma lstat_error (p : string) (w w' : World) (e : Error) :
  lstat p w = (Err e, w') -> isTypeError e = false.
Proof.
  unfold lstat. destruct (fs w !! p) as [[c|]|]; [| |destruct (existsPath _ _)];
    intros [= <- _]; reflexivity.
Qed.

Lemma copy_error (src dst : string) (w w' : World) (e : Error) :
  copy src dst w = (Err e, w') -> isTypeError e = false.
Proof.
  unfold copy. destruct (existsPath _ _); intros [= <- _]; reflexivity.
Qed.

Lemma classifierLoop_error (a : ResolverArgs) (libDir : string) (entry : GeneratedFile)
    (cs : list (option string)) :
  forall (tl : list string) (w w' : World) (e : Error),
  classifierLoop LY a libDir entry cs tl w = (Err e, w') -> isTypeError e = false.
Proof.
  induction cs as [|c cs IH]; intros tl w w' e.
  - cbn. discriminate.
  - cbn [classifierLoop]. unfold pathExists at 1. unfold mbind, M_bind. cbn [fs trace].
    destruct (existsPath (fs w) (targetPath LY libDir entry c)); [|apply IH].
    destruct (readFile _ _) as [[b|e0] w1] eqn:Er;
      [|intros [= <- _]; eapply readFile_error; eassumption].
    destruct (lstat _ w1) as [[st|e0] w2] eqn:El;
      [|intros [= <- _]; eapply lstat_error; eassumption].
    destruct (copy _ _ w2) as [[[]|e0] w3] eqn:Ec;
      [discriminate|intros [= <- _]; eapply copy_error; eassumption].
Qed.

Lemma processEntry_error (a : ResolverArgs) (libDir : string) (entry : GeneratedFile)
    (w w' : World) (e : Error) :
  processEntry LY a libDir entry w = (Err e, w') -> isTypeError e = false.
Proof.
  unfold processEntry. run.
  destruct (classifierLoop LY a libDir entry (gf_classifiers entry) [] w)
    as [[[fnd tl]|e0] w1] eqn:E.
  - destruct (negb (truthy (gf_skipIfNotPresent entry)) && _); [|discriminate].
    intros [= <- _]. reflexivity.
  - intros [= <- _]. eapply classifierLoop_error; eassumption.
Qed.

Lemma generatedFilesLoop_error (a : ResolverArgs) (libDir : string) :
  forall (entries : list GeneratedFile) (acc : list Module) (w w' : World) (e : Error),
  generatedFilesLoop LY a libDir entries acc w = (Err e, w') -> isTypeError e = false.
Proof.
  induction entries as [|entry rest IH]; intros acc w w' e.
  - cbn. discriminate.
  - cbn [generatedFilesLoop]. run.
    destruct (processEntry LY a libDir entry w) as [[found|e0] w1] eqn:E.
    + apply IH.
    + intros [= <- _]. eapply processEntry_error; eassumption.
Qed.

Lemma generatedFilesLoop_nonempty (a : ResolverArgs) (libDir : string)
    (entry : GeneratedFile) (rest : list GeneratedFile) (mdls : list Module) (w w' : World) :
  truthy (gf_skipIfNotPresent entry) = false ->
  generatedFilesLoop LY a libDir (entry :: rest) [] w = (Ok mdls, w') ->
  mdls <> [].
Proof.
  intros Hreq. cbn [generatedFilesLoop]. run.
  destruct (processEntry LY a libDir entry w) as [[found|e] w1] eqn:E; [|discriminate].
  apply processEntry_shape in E. destruct found as [m|]; [|congruence].
  intros H. apply generatedFilesLoop_extends in H as [more ->]. discriminate.
Qed.

(** Every list that [configure] builds starts with a required entry. *)
Lemma configure_head_required (mv : MinecraftVersion) (files : list GeneratedFile) :
  (configure VU LC mv).1 = Some files ->
  exists f rest, files = f :: rest /\ gf_skipIfNotPresent f = None.
Proof.
  unfold configure.
  destruct (isExecutableJar mv); [intros [= <-]; eauto|].
  destruct (isVersionAcceptable VU mv [19; 20]); [|discriminate].
  destruct (isVersionAcceptable VU mv [17; 18; 19; 20]),
           (isVersionAcceptable VU mv [18; 19; 20]);
    intros [= <-]; cbn; eauto.
Qed.

Lemma resolveWildcards_executable (a : ResolverArgs) (vm : VersionManifestFG3) (w : World) :
  isExecutableJar (minecraftVersion a) = true ->
  exists f rest,
    resolveWildcards (configuredResolver VU LC a) vm w = (Ok (f :: rest), w) /\
    truthy (gf_skipIfNotPresent f) = false.
Proof.
  intros Hexe. unfold resolveWildcards, configuredResolver, expectedFiles, configure.
  cbn [generatedFiles wildcardsInUse]. rewrite Hexe. cbn [fst snd].
  eexists. eexists. split; reflexivity.
Qed.

(** X17: for a resolver as configured for a game version from 1.20.3 on,
    the module list that [processNeoForgeModule] takes its root from is never
    empty, because the configured list starts with a required entry: the
    function never raises a TypeError.  For a version of the 1.19-1.20.2 range
    the versions of the expected files are searched for the wildcard; with
    [artifactVersion] undefined, as the sources leave it, a manifest that does
    give an MCP version makes the function raise the TypeError of a property
    read on undefined, before any file is looked for.  Whatever the version,
    what the function returns is tagged [NeoForgeHosted] and carries a list of
    children. *)
Theorem processNeoForgeModule_configured_root
    (a : ResolverArgs) (vm : VersionManifestFG3) (dir : string) (w : World) :
  (isExecutableJar (minecraftVersion a) = true ->
   forall e w',
     processNeoForgeModule LY (configuredResolver VU LC a) vm dir w = (Err e, w') ->
     isTypeError e = false) /\
  (isExecutableJar (minecraftVersion a) = false ->
   isVersionAcceptable VU (minecraftVersion a) [19; 20] = true ->
   artifactVersion LC = None ->
   forall mcp,
     getMCPVersion (vm3_game vm) = Some mcp ->
     processNeoForgeModule LY (configuredResolver VU LC a) vm dir w =
     (Err (TypeError "Cannot read properties of undefined (reading 'includes')"), w)) /\
  (forall root w',
      processNeoForgeModule LY (configuredResolver VU LC a) vm dir w = (Ok root, w') ->
      m_type root = NeoForgeHosted /\ exists rest, m_subModules root = Some rest).
Proof.
  split; [|split].
  - intros Hexe e w'.
    destruct (resolveWildcards_executable a vm w Hexe) as (f & rest & Hres & Hreq).
    unfold processNeoForgeModule. unfold mbind at 1, M_bind at 1. rewrite Hres.
    unfold mbind, M_bind.
    destruct (generatedFilesLoop LY _ _ (f :: rest) [] w) as [[mdls|e1] w2] eqn:Eloop.
    + apply generatedFilesLoop_nonempty in Eloop; [|exact Hreq].
      destruct mdls; [congruence|]. discriminate.
    + intros [= <- _]. eapply generatedFilesLoop_error; eassumption.
  - intros Hexe H19 Hav mcp Hmcp. unfold processNeoForgeModule. run.
    now rewrite (resolveWildcards_undefined_version VU LC a vm w mcp Hav Hexe H19 Hmcp).
  - intros root w'. unfold processNeoForgeModule. run.
    destruct (resolveWildcards _ vm w) as [[files|e0] w1] eqn:Eres; [|discriminate].
    destruct (generatedFilesLoop _ _ _ _ _ w1) as [[mdls|e1] w2] eqn:Eloop; [|discriminate].
    destruct mdls as [|m mdls]; [discriminate|].
    intros [= <- _]. split; [reflexivity|]. now exists mdls.
Qed.

(** *** The end of [processWithInstaller] *)

(** X18: at the end of a successful [processWithInstaller], when the output
    is to be discarded the installer output directory is removed as the last
    action: nothing is left at or beneath it, and every file outside it,
    the copies in the repository among them, is as the library step left it;
    when the output is kept, the world is the one the library step left. *)
Theorem processWithInstaller_discards_output
    (r : Resolver) (installerPath : string) (w w0 w1 w2 w3 w4 : World)
    (vm : VersionManifestFG3) (vmMod m : Module) (files : list GeneratedFile)
    (rest libs : list Module) :
  let a := r_args r in
  let dir := getNeoForgeCacheDirectory LY (artifactVersion LC) in
  installPhase LY EX a installerPath dir w = (Ok tt, w0) ->
  verifyInstallerRan LY a dir w0 = (Ok tt, w1) ->
  processVersionManifest LC LY EX a dir w1 = (Ok (vm, vmMod), w2) ->
  resolveWildcards r vm w2 = (Ok files, w2) ->
  generatedFilesLoop LY a (join dir "libraries") files [] w2 = (Ok (m :: rest), w3) ->
  processLibraries LY a (join dir "libraries") (vm3_libraries vm) [] w3 = (Ok libs, w4) ->
  exists root w',
    processWithInstaller LC LY EX r installerPath w = (Ok root, w') /\
    (discardOutput a = true ->
     trace w' = trace w4 ++ [EvRemove dir] /\
     (forall p, under dir p = true -> existsPath (fs w') p = false) /\
     (forall p, under dir p = false -> fs w' !! p = fs w4 !! p)) /\
    (discardOutput a = false -> w' = w4).
Proof.
  intros a dir Hinst Hver Hvm Hwild Hloop Hlibs.
  eexists. eexists. split.
  - eapply processWithInstaller_run; eassumption.
  - fold a. fold dir. unfold afterDiscard. split.
    + intros ->. cbn [fs trace]. split; [reflexivity|]. split.
      * intros p Hp. now apply existsPath_removePath.
      * intros p Hp. now apply removePath_lookup_other.
    + intros ->. reflexivity.
Qed.

End RootFacts.

(** ** Runs on concrete inputs: further properties *)

Lemma getMCPVersion_first_flag_witness :
  getMCPVersion (vm3_game manifestWithMcp) = Some "20230612.114412"%string /\
  getMCPVersion ["--launchTarget"; "forgeclient"]%string = None.
Proof.
  split.
  - apply (proj1 getMCPVersion_first_flag ["--launchTarget"; "forgeclient"]%string
             ["20230612.114412"%string]).
    intros x [<-|[<-|[]]]; discriminate.
  - apply (proj2 getMCPVersion_first_flag).
    intros x [<-|[<-|[]]]; discriminate.
Defined.

Lemma resolveWildcards_keeps_entries_witness :
  (map entryShape resolvedWildcardFiles =
   map entryShape (default [] (generatedFiles wildcardResolver)) /\
   map gf_version resolvedWildcardFiles =
   [ Some "1.20.1"; Some "1.20.1-20230612.114412"; Some "1.20.1-20230612.114412" ]%string) /\
  Forall2 (fun o f => carriesWildcard o = false -> f = o)
    (default [] (generatedFiles resolver1211)) (default [] (generatedFiles resolver1211)).
Proof.
  split.
  - split; [|vm_compute; reflexivity].
    apply (resolveWildcards_keeps_entries wildcardResolver manifestWithMcp emptyWorld emptyWorld
             (default [] (generatedFiles wildcardResolver)) resolvedWildcardFiles).
    + reflexivity.
    + vm_compute. reflexivity.
  - apply (resolveWildcards_keeps_entries resolver1211 sampleManifest3 emptyWorld emptyWorld
             (default [] (generatedFiles resolver1211))
             (default [] (generatedFiles resolver1211))).
    + reflexivity.
    + reflexivity.
Defined.

Lemma processNeoForgeModule_needs_mcp_version_before_1_20_3_witness :
  (exists files,
      generatedFiles (configuredResolver sampleVersionUtil sampleConsts args1211) = Some files /\
      resolveWildcards (configuredResolver sampleVersionUtil sampleConsts args1211)
        sampleManifest3 emptyWorld = (Ok files, emptyWorld)) /\
  processNeoForgeModule sampleLayout (configuredResolver sampleVersionUtil sampleConsts args1201)
    sampleManifest3 cacheDir1211 emptyWorld =
  (Err (JsError "MCP Version not found.. did neoforge change their format?"), emptyWorld).
Proof.
  split.
  - apply (proj1 (processNeoForgeModule_needs_mcp_version_before_1_20_3 sampleVersionUtil
                    sampleConsts sampleLayout args1211 sampleManifest3 cacheDir1211 emptyWorld)).
    reflexivity.
  - apply (proj2 (processNeoForgeModule_needs_mcp_version_before_1_20_3 sampleVersionUtil
                    sampleConsts sampleLayout args1201 sampleManifest3 cacheDir1211 emptyWorld));
      reflexivity.
Defined.

Lemma installPhase_reuses_cache_witness :
  (installPhase sampleLayout externals1211 args1211 installerJar cacheDir1211;;
   verifyInstallerRan sampleLayout args1211 cacheDir1211) cachedWorld =
  (Ok tt,
   mkWorld (fs cachedWorld)
     [EvExists cacheDir1211;
      EvExists (getVersionManifestPath sampleLayout args1211 cacheDir1211)]).
Proof.
  apply (installPhase_reuses_cache sampleLayout externals1211 args1211 installerJar
           cacheDir1211 cachedWorld).
  - vm_compute. reflexivity.
  - reflexivity.
  - vm_compute. reflexivity.
Defined.

Lemma process_secures_installer_witness :
  process sampleConsts sampleLayout externalsOffline resolver1211 worldWithInstaller =
  processWithInstaller sampleConsts sampleLayout externalsOffline resolver1211 installerJar
    (mkWorld (fs worldWithInstaller) [EvExists installerJar]) /\
  process sampleConsts sampleLayout externalsOffline resolver1211 emptyWorld =
  (Err (DownloadError installerJar), mkWorld ∅ [EvExists installerJar]) /\
  process sampleConsts sampleLayout externalsFresh resolver1211 emptyWorld =
  processWithInstaller sampleConsts sampleLayout externalsFresh resolver1211 installerJar
    (mkWorld (<[installerJar := File "fresh"]> ∅)
             [EvExists installerJar; EvDownload installerJar]).
Proof.
  split; [|split].
  - apply (proj1 (process_secures_installer sampleVersionUtil sampleConsts sampleLayout
                    externalsOffline resolver1211 worldWithInstaller)).
    vm_compute. reflexivity.
  - apply (proj1 (proj2 (process_secures_installer sampleVersionUtil sampleConsts
                           sampleLayout externalsOffline resolver1211 emptyWorld)));
      reflexivity.
  - apply (proj1 (proj2 (proj2 (process_secures_installer sampleVersionUtil sampleConsts
                                  sampleLayout externalsFresh resolver1211 emptyWorld))));
      reflexivity.
Defined.

Lemma determineExtension_range_witness :
  determineExtension sampleLayout externalsFresh (exampleLib2 None None) emptyWorld =
  (Ok "jar"%string, emptyWorld).
Proof.
  destruct (determineExtension_range sampleLayout externalsFresh (exampleLib2 None None)
              emptyWorld) as (ext & w' & Hrun & _ & _ & Hnone).
  destruct (Hnone eq_refl) as [-> ->]. exact Hrun.
Defined.

Lemma determineExtension_priority_witness :
  (determineExtension sampleLayout externalsFresh
     (exampleLib2 (Some "https://host/"%string) None) (worldWith packedPath "packed-bytes")).1 =
  Ok "jar.pack.xz"%string /\
  (determineExtension sampleLayout externalsFresh
     (exampleLib2 (Some "https://host/"%string) None)
     (worldWith (exampleLibPath "jar") "plain-bytes")).1 = Ok "jar"%string /\
  determineExtension sampleLayout externalsFresh
    (exampleLib2 (Some "https://host/"%string) None) emptyWorld =
  (Ok "jar.pack.xz"%string,
   mkWorld ∅ [EvExists packedPath; EvExists (exampleLibPath "jar");
              EvHead REMOTE_REPOSITORY "org.example:lib:1.0" "jar.pack.xz"]) /\
  determineExtension sampleLayout externalsOffline
    (exampleLib2 (Some "https://host/"%string) None) emptyWorld =
  (Ok "jar"%string,
   mkWorld ∅ [EvExists packedPath; EvExists (exampleLibPath "jar");
              EvHead REMOTE_REPOSITORY "org.example:lib:1.0" "jar.pack.xz";
              EvHead REMOTE_REPOSITORY "org.example:lib:1.0" "jar"]).
Proof.
  split; [|split; [|split]].
  - eapply run_fst.
    apply (proj1 (determineExtension_priority sampleLayout externalsFresh
                    (exampleLib2 (Some "https://host/"%string) None) "https://host/"%string
                    (worldWith packedPath "packed-bytes") eq_refl)).
    vm_compute. reflexivity.
  - eapply run_fst.
    apply (proj1 (proj2 (determineExtension_priority sampleLayout externalsFresh
                    (exampleLib2 (Some "https://host/"%string) None) "https://host/"%string
                    (worldWith (exampleLibPath "jar") "plain-bytes") eq_refl)));
      vm_compute; reflexivity.
  - apply (proj1 (proj2 (proj2 (determineExtension_priority sampleLayout externalsFresh
                    (exampleLib2 (Some "https://host/"%string) None) "https://host/"%string
                    emptyWorld eq_refl)))); reflexivity.
  - apply (proj2 (proj2 (proj2 (determineExtension_priority sampleLayout externalsOffline
                    (exampleLib2 (Some "https://host/"%string) None) "https://host/"%string
                    emptyWorld eq_refl)))); reflexivity.
Defined.

Lemma librariesLoopFG2_queue_has_modules_witness :
  exists subs queue,
    packedLoop.1 = Ok (subs, queue) /\
    map q_id queue = ["org.example:lib:1.0@jar.pack.xz"%string] /\
    (forall q, In q queue -> is_Some (findById (q_id q) subs)) /\
    length subs = 1%nat.
Proof.
  eexists. eexists. split; [vm_compute; reflexivity|]. split; [reflexivity|].
  apply (librariesLoopFG2_queue_has_modules sampleLayout externalsFresh args1122
           [exampleLib2 (Some "https://host/"%string) None] [] []
           (worldWith packedPath "packed-bytes") _ _ packedLoop.2).
  - intros q [].
  - apply run_eq. vm_compute. reflexivity.
Defined.

Lemma applyHashes_changes_only_MD5_witness :
  applyHashes [mkHashEntry "org.example:other:1.0@jar.pack.xz" "md5:x"]
    [libraryModule sampleLayout args1122 "org.example:lib:1.0" "jar.pack.xz" "packed-bytes"
       (mkStats 12 false)] =
  [libraryModule sampleLayout args1122 "org.example:lib:1.0" "jar.pack.xz" "packed-bytes"
     (mkStats 12 false)].
Proof.
  apply (proj2 (applyHashes_changes_only_MD5 _ _)).
  intros e [<-|[]]. vm_compute. reflexivity.
Defined.


Lemma generatedFilesLoop_resolves_in_order_witness :
  exists founds : list (option Module),
    resOr [] (generatedFilesLoop sampleLayout args1211 libDir1211
                [slimEntry None; absentEntry] [] worldSlimStable).1 =
    [] ++ omap id founds /\
    Forall2 (fun e f =>
               match f with
               | Some m => exists c buf st, In c (gf_classifiers e) /\
                                            m = generatedModule sampleLayout args1211 e c buf st
               | None => truthy (gf_skipIfNotPresent e) = true
               end)
            [slimEntry None; absentEntry] founds.
Proof.
  apply (generatedFilesLoop_resolves_in_order sampleLayout args1211 libDir1211
           [slimEntry None; absentEntry] [] _ worldSlimStable
           (generatedFilesLoop sampleLayout args1211 libDir1211
              [slimEntry None; absentEntry] [] worldSlimStable).2).
  apply run_eq, isOk_eq. vm_compute. reflexivity.
Defined.

Lemma librariesLoopFG3_appends_in_order_witness :
  exists more,
    resOr [] (librariesLoopFG3 sampleLayout externals1165 args1165
                [neoRecord; loaderRecord] [] emptyWorld).1 = [] ++ more /\
    Forall2 (fun lib m => exists buf st,
                 m = libraryModule sampleLayout args1165 (lib3_name lib) "jar" buf st)
            [loaderRecord] more.
Proof.
  apply (librariesLoopFG3_appends_in_order sampleLayout externals1165 args1165
           [neoRecord; loaderRecord] [] _ emptyWorld
           (librariesLoopFG3 sampleLayout externals1165 args1165
              [neoRecord; loaderRecord] [] emptyWorld).2).
  apply run_eq, isOk_eq. vm_compute. reflexivity.
Defined.




Lemma getNeoForgeByVersion_takes_local_universal_witness :
  (exists root,
      (getNeoForgeByVersion sampleConsts sampleLayout externals1122 resolver1122
         (worldWith universalPath "universal-bytes")).1 = Ok root /\
      m_type root = NeoForgeHosted /\
      a_MD5 (m_artifact root) = "md5:universal-bytes"%string /\
      option_map (map m_id) (m_subModules root) =
      Some [Some "org.example:lib:1.0@jar"%string]) /\
  getNeoForgeByVersion sampleConsts sampleLayout externalsOffline resolver1122 emptyWorld =
  (Err (DownloadError universalPath), mkWorld ∅ [EvExists universalPath]) /\
  getNeoForgeByVersion sampleConsts sampleLayout externalsNoEntry resolver1122
    (worldWith universalPath "universal-bytes") =
  (Err (JsError "Failed to find version.json in neoforge universal jar."),
   world1122_probed).
Proof.
  assert (Hjar : fs (worldWith universalPath "universal-bytes") !! universalPath =
                 Some (File "universal-bytes")) by (vm_compute; reflexivity).
  split; [|split].
  - eexists. split.
    + eapply run_fst.
      eapply (proj1 (getNeoForgeByVersion_takes_local_universal sampleConsts sampleLayout
                       externals1122 resolver1122 (worldWith universalPath "universal-bytes"))
                "universal-bytes"%string "version.json"%string sampleManifest2 _ _ _
                loop1122.2 (processPackXZFiles sampleLayout externals1122 [] loop1122.2).2 Hjar).
      * reflexivity.
      * reflexivity.
      * apply (run_eq loop1122). vm_compute. reflexivity.
      * apply run_eq. vm_compute. reflexivity.
    + split; [reflexivity|]. split; vm_compute; reflexivity.
  - apply (proj1 (proj2 (getNeoForgeByVersion_takes_local_universal sampleConsts sampleLayout
                           externalsOffline resolver1122 emptyWorld))); reflexivity.
  - apply (proj2 (proj2 (getNeoForgeByVersion_takes_local_universal sampleConsts sampleLayout
                           externalsNoEntry resolver1122
                           (worldWith universalPath "universal-bytes")))
             "universal-bytes"%string Hjar).
    reflexivity.
Defined.

Lemma processNeoForgeModule_configured_root_witness :
  (forall e w',
      processNeoForgeModule sampleLayout
        (configuredResolver sampleVersionUtil sampleConsts args1211) sampleManifest3
        cacheDir1211 emptyWorld = (Err e, w') ->
      isTypeError e = false) /\
  processNeoForgeModule sampleLayout
    (configuredResolver sampleVersionUtil sampleConsts args1201) manifestWithMcp cacheDir1211
    emptyWorld =
  (Err (TypeError "Cannot read properties of undefined (reading 'includes')"), emptyWorld) /\
  exists root,
    (processNeoForgeModule sampleLayout
       (configuredResolver sampleVersionUtil sampleConsts args1211) sampleManifest3 cacheDir1211
       world1211_manifest).1 = Ok root /\
    m_type root = NeoForgeHosted /\
    exists rest, m_subModules root = Some rest.
Proof.
  split; [|split].
  - apply (proj1 (processNeoForgeModule_configured_root sampleVersionUtil sampleConsts
                    sampleLayout args1211 sampleManifest3 cacheDir1211 emptyWorld)).
    reflexivity.
  - apply (proj1 (proj2 (processNeoForgeModule_configured_root sampleVersionUtil sampleConsts
                           sampleLayout args1201 manifestWithMcp cacheDir1211 emptyWorld))
             eq_refl eq_refl eq_refl "20230612.114412"%string).
    reflexivity.
  - eexists. split.
    + apply isOk_eq with (d := libraryModule sampleLayout args1211 "" "" "" (mkStats 0 false)).
      vm_compute. reflexivity.
    + apply (proj2 (proj2 (processNeoForgeModule_configured_root sampleVersionUtil
                             sampleConsts sampleLayout args1211 sampleManifest3 cacheDir1211
                             world1211_manifest))
               _ (processNeoForgeModule sampleLayout
                    (configuredResolver sampleVersionUtil sampleConsts args1211)
                    sampleManifest3 cacheDir1211 world1211_manifest).2).
      apply run_eq, isOk_eq. vm_compute. reflexivity.
Defined.

Lemma processWithInstaller_discards_output_witness :
  (exists root w',
      processWithInstaller sampleConsts sampleLayout externals1211 resolver1211d installerJar
        cachedWorld = (Ok root, w') /\
      trace w' = trace discarded1211_libraries ++ [EvRemove cacheDir1211] /\
      existsPath (fs w') libDir1211 = false /\
      fs w' !! installerJar = fs discarded1211_libraries !! installerJar) /\
  (exists root,
      processWithInstaller sampleConsts sampleLayout externals1211 resolver1211 installerJar
        cachedWorld = (Ok root, world1211_libraries)).
Proof.
  split.
  - edestruct (processWithInstaller_discards_output sampleConsts sampleLayout externals1211
                 resolver1211d installerJar cachedWorld
                 discarded1211_installed discarded1211_verified discarded1211_manifest
                 discarded1211_files discarded1211_libraries)
      with (vm := sampleManifest3) (files := default [] (generatedFiles resolver1211d))
      as (root & w' & Hrun & Hdiscard & _).
    + apply run_eq. vm_compute. reflexivity.
    + apply run_eq. vm_compute. reflexivity.
    + apply run_eq. vm_compute. reflexivity.
    + reflexivity.
    + unfold discarded1211_files. apply run_eq. vm_compute. reflexivity.
    + unfold discarded1211_libraries. apply run_eq. vm_compute. reflexivity.
    + exists root, w'. split; [exact Hrun|].
      destruct (Hdiscard eq_refl) as (Htrace & Hgone & Hkept).
      split; [exact Htrace|]. split; [apply Hgone|apply Hkept]; vm_compute; reflexivity.
  - edestruct (processWithInstaller_discards_output sampleConsts sampleLayout externals1211
                 resolver1211 installerJar cachedWorld
                 world1211_installed world1211_verified world1211_manifest
                 world1211_files world1211_libraries)
      with (vm := sampleManifest3) (files := default [] (generatedFiles resolver1211))
      as (root & w' & Hrun & _ & Hkeep).
    + apply run_eq. vm_compute. reflexivity.
    + apply run_eq. vm_compute. reflexivity.
    + apply run_eq. vm_compute. reflexivity.
    + reflexivity.
    + unfold world1211_files. apply run_eq. vm_compute. reflexivity.
    + unfold world1211_libraries. apply run_eq. vm_compute. reflexivity.
    + exists root. rewrite <- (Hkeep eq_refl). exact Hrun.
Defined.
